(** * PyYapf: the editor plugin that runs the yapf formatter on a selection

    A shallow embedding of [PyYapf.py] (a Sublime Text 2 plugin, Python 2).

    - Python [str] values are 8-bit strings: Rocq's [string].
    - The text of the editor's buffer is a Python [unicode] value: a list of
      code points ([list N]).
    - A Python [dict] with string keys is a [gmap string _].
    - Code that can raise returns a [result]; code that acts on the editor,
      the file system or a subprocess runs in the monad [M], a state monad
      over [world] whose results are [result]s.  An exception does not undo
      the effects that came before it.
    - Console output ([print]) is not modelled: no statement below depends
      on it and it cannot raise. *)

From Stdlib Require Import String Ascii List ZArith Lia Bool.
From Stdlib Require Import DecimalString DecimalN DecimalZ.
From stdpp Require Import gmap strings.

Import ListNotations.
Local Open Scope string_scope.
Local Open Scope list_scope.

(** ** Exceptions and results *)

(** [UnicodeEncodeError] objects: the attributes the plugin reads
    ([reason], [message], [start]) and the others the codec fills in. *)
Record unicode_encode_error := UEE {
  uee_encoding : string;
  uee_object : list N;
  uee_start : Z;
  uee_end : Z;
  uee_reason : string;
  uee_message : string
}.

Inductive exn :=
| ValueError
| KeyError
| IndexError
| TypeError
| LookupError
| OSError
| IOError
| ConfigParserError
| UnicodeDecodeError
| UnicodeEncodeError (e : unicode_encode_error).

Inductive result (A : Type) :=
| Ok (a : A)
| Raise (e : exn).
Arguments Ok {A} a.
Arguments Raise {A} e.

Definition rbind {A B} (r : result A) (k : A -> result B) : result B :=
  match r with
  | Ok a => k a
  | Raise e => Raise e
  end.

#[global] Instance result_ret : MRet result := fun _ a => Ok a.
#[global] Instance result_bind : MBind result := fun _ _ k r => rbind r k.

(** ** Python string primitives *)

Module Py.

(** The characters [str.strip()] removes: space, and \t \n \v \f \r. *)
Definition is_space (a : ascii) : bool :=
  let n := N_of_ascii a in
  (N.eqb n 32 || (N.leb 9 n && N.leb n 13))%bool.

Fixpoint lstrip_by (p : ascii -> bool) (s : string) : string :=
  match s with
  | EmptyString => EmptyString
  | String a s' => if p a then lstrip_by p s' else s
  end.

Fixpoint rstrip_by (p : ascii -> bool) (s : string) : string :=
  match s with
  | EmptyString => EmptyString
  | String a s' =>
      match rstrip_by p s' with
      | EmptyString => if p a then EmptyString else String a EmptyString
      | r => String a r
      end
  end.

(** [s.strip()] *)
Definition strip (s : string) : string :=
  rstrip_by is_space (lstrip_by is_space s).

(** [s.rstrip(c)] for a one-character argument *)
Definition rstrip_char (c : ascii) (s : string) : string :=
  rstrip_by (Ascii.eqb c) s.

(** [s.split(c)] for a one-character separator: every occurrence splits,
    empty fields are kept, the result is never empty. *)
Fixpoint split (c : ascii) (s : string) : list string :=
  match s with
  | EmptyString => [EmptyString]
  | String a s' =>
      if Ascii.eqb a c then EmptyString :: split c s'
      else match split c s' with
           | h :: t => String a h :: t
           | [] => [String a EmptyString]
           end
  end.

(** [sep.join(l)] *)
Fixpoint join (sep : string) (l : list string) : string :=
  match l with
  | [] => EmptyString
  | [x] => x
  | x :: rest => x +:+ sep +:+ join sep rest
  end.

(** [c in s] for a one-character [c] *)
Fixpoint contains (c : ascii) (s : string) : bool :=
  match s with
  | EmptyString => false
  | String a s' => (Ascii.eqb a c || contains c s')%bool
  end.

(** [s.find(c)] for a one-character [c]: the first index, or -1 *)
Fixpoint find (c : ascii) (s : string) : Z :=
  match s with
  | EmptyString => (-1)%Z
  | String a s' =>
      if Ascii.eqb a c then 0%Z
      else let i := find c s' in if (i <? 0)%Z then (-1)%Z else (i + 1)%Z
  end.

(** [l[-1]] on a list of strings *)
Definition last_item (l : list string) : result string :=
  match l with
  | [] => Raise IndexError
  | x :: rest => Ok (List.last rest x)
  end.

(** [s[-1]] and [s[0]] *)
Fixpoint last_char (s : string) : result ascii :=
  match s with
  | EmptyString => Raise IndexError
  | String a EmptyString => Ok a
  | String _ s' => last_char s'
  end.

Definition first_char (s : string) : result ascii :=
  match s with
  | EmptyString => Raise IndexError
  | String a _ => Ok a
  end.

(** [s[:-1]] *)
Fixpoint drop_last (s : string) : string :=
  match s with
  | EmptyString => EmptyString
  | String a EmptyString => EmptyString
  | String a s' => String a (drop_last s')
  end.

(** [s[1:]] and [s[1:-1]] *)
Definition drop_first (s : string) : string :=
  match s with
  | EmptyString => EmptyString
  | String _ s' => s'
  end.

Definition slice_1_m1 (s : string) : string := drop_last (drop_first s).

(** [s[i:]] for [i >= 0] *)
Fixpoint drop (n : nat) (s : string) : string :=
  match n, s with
  | O, _ => s
  | S n', String _ s' => drop n' s'
  | S _, EmptyString => EmptyString
  end.

(** [a, b = l] *)
Definition unpack2 (l : list string) : result (string * string) :=
  match l with
  | [a; b] => Ok (a, b)
  | _ => Raise ValueError
  end.

(** [int(s)]: surrounding whitespace, an optional sign, decimal digits. *)
Definition int (s : string) : result Z :=
  let t := strip s in
  let '(neg, body) :=
    match t with
    | String a r =>
        if Ascii.eqb a "-" then (true, r)
        else if Ascii.eqb a "+" then (false, r)
        else (false, t)
    | EmptyString => (false, t)
    end in
  match NilZero.uint_of_string body with
  | Some d =>
      let n := Z.of_N (N.of_uint d) in
      Ok (if neg then (- n)%Z else n)
  | None => Raise ValueError
  end.

(** ["%i" % n] *)
Definition fmt_int (n : Z) : string := NilZero.string_of_int (Z.to_int n).

(** [s.lower()] on an 8-bit string *)
Definition lower_char (a : ascii) : ascii :=
  let n := N_of_ascii a in
  if (N.leb 65 n && N.leb n 90)%bool then ascii_of_N (n + 32) else a.

Fixpoint lower (s : string) : string :=
  match s with
  | EmptyString => EmptyString
  | String a s' => String (lower_char a) (lower s')
  end.

(** [s.replace(c, t)] for a one-character [c] *)
Fixpoint replace_char (c : ascii) (t : string) (s : string) : string :=
  match s with
  | EmptyString => EmptyString
  | String a s' =>
      if Ascii.eqb a c then t +:+ replace_char c t s'
      else String a (replace_char c t s')
  end.

End Py.

(** ** [failure_parser] *)

(** What [failure_parser] is given: the stderr text of the formatter, or the
    exception object of a failed [encode]. *)
Inductive failure :=
| FailureText (s : string)
| FailureException (e : unicode_encode_error).

(** The context value built for a character offset, line 25 and line 41:
    an opening parenthesis, two double quotes (character 34), a comma, a
    space, the number and a closing parenthesis. *)
Definition context_of_offset (n : Z) : string :=
  "(" +:+ String "034" (String "034" (", " +:+ Py.fmt_int n +:+ ")")).

(** The variables the [for element in detail.split(' ')] loop updates. *)
Record scan := Scan {
  tval : gmap string string;
  stripped_comma : bool;
  key : option string
}.

(** One pass through the body of the loop (lines 44-56). *)
Definition scan_element (st : scan) (element : string) : result scan :=
  let element := Py.strip element in
  if String.eqb element "" then Ok st
  else if Py.contains "=" element then
    ('(k, value) ← Py.unpack2 (Py.split "=" element) ;
     c ← Py.last_char value ;
     let value := Py.rstrip_char "," value in
     Ok (Scan (<[k := value]> (tval st)) (Ascii.eqb c ",") (Some k)))
  else
    let element := if stripped_comma st then ", " +:+ element else element in
    match key st with
    | None => Raise KeyError
    | Some k =>
        match tval st !! k with
        | None => Raise KeyError
        | Some old => Ok (Scan (<[k := old +:+ element]> (tval st)) false (Some k))
        end
    end.

Fixpoint scan_elements (st : scan) (elements : list string) : result scan :=
  match elements with
  | [] => Ok st
  | element :: rest =>
      st' ← scan_element st element ; scan_elements st' rest
  end.

(** The value of [lastline] at line 29: a split is never empty, so its last
    item always exists. *)
Definition lastline (in_failure : string) : string :=
  List.last (Py.split "010" (Py.strip in_failure)) "".

Definition failure_parser (in_failure : failure)
  : result (string * string * gmap string string) :=
  match in_failure with
  | FailureException e =>
      Ok (uee_reason e, uee_message e,
          {[ "context" := context_of_offset (uee_start e) ]})
  | FailureText s =>
      (lastline ← Py.last_item (Py.split "010" (Py.strip s)) ;
       '(err, msg) ← Py.unpack2 (firstn 2 (Py.split ":" lastline)) ;
       let detail := Py.join ":" (skipn 2 (Py.split ":" (Py.strip lastline))) in
       if String.eqb err "UnicodeEncodeError" then
         (position ← Py.last_item (Py.split "-" msg) ;
          n ← Py.int position ;
          Ok (err, msg, {[ "context" := context_of_offset n ]}))
       else
         (st ← scan_elements (Scan ∅ false None) (Py.split " " detail) ;
          Ok (err, msg, tval st)))
  end.

(** ** The editor, the file system and the formatter process *)

(** [sublime.Region(a, b)] *)
Record region := Region { reg_a : nat; reg_b : nat }.

Definition region_begin (r : region) : nat := Nat.min (reg_a r) (reg_b r).
Definition region_end (r : region) : nat := Nat.max (reg_a r) (reg_b r).
Definition region_empty (r : region) : bool := Nat.eqb (reg_a r) (reg_b r).

(** A value of a style setting, and [str(value)] *)
Inductive style_value :=
| VStr (s : string)
| VInt (n : Z)
| VBool (b : bool).

Definition py_str (v : style_value) : string :=
  match v with
  | VStr s => s
  | VInt n => Py.fmt_int n
  | VBool true => "True"
  | VBool false => "False"
  end.

(** [PyYapf.sublime-settings]: a key that is absent is [None] here, and
    [settings.get(key, default)] then gives the default. *)
Record settings := Settings {
  use_entire_file_if_no_selection : option bool;
  config : option (gmap string style_value);
  yapf_command : option string
}.

(** Where the editor is asked to put its marker: [view.text_point(row, col)]
    or a character index. *)
Inductive point :=
| TextPoint (row col : Z)
| CharIndex (n : Z).

(** The text of a modal dialog: the format call of [smart_failure], whose
    arguments are kept apart, or a plain string. *)
Inductive modal :=
| Parsed (err msg : string) (context_dict : gmap string string)
| Plain (s : string).

(** The calls that leave the plugin, in the order they are made.  [Popen]
    and [CodecsOpen] stand for calls whose arguments are all strings. *)
Inductive event :=
| ErrorMessage (m : modal)
| EraseRegions (k : string)
| AddRegions (k : string) (line_of : point) (scope icon : string)
| ShowAtCenter (line_of : point)
| Replace (selection : region) (text : list N)
| Encode (encoding : string) (text : list N)
| Popen (argv : list string)
| CodecsOpen (filename : string) (encoding : string).

Record world := World {
  view_text : list N;
  view_encoding : string;
  view_sel : list region;
  plugin_settings : settings;
  files : gmap string string;
  tmp_next : nat;
  trace : list event
}.

Definition set_view_text (t : list N) (w : world) : world :=
  World t (view_encoding w) (view_sel w) (plugin_settings w) (files w)
        (tmp_next w) (trace w).
Definition set_files (fs : gmap string string) (w : world) : world :=
  World (view_text w) (view_encoding w) (view_sel w) (plugin_settings w) fs
        (tmp_next w) (trace w).
Definition set_tmp_next (n : nat) (w : world) : world :=
  World (view_text w) (view_encoding w) (view_sel w) (plugin_settings w)
        (files w) n (trace w).
Definition add_events (evs : list event) (w : world) : world :=
  World (view_text w) (view_encoding w) (view_sel w) (plugin_settings w)
        (files w) (tmp_next w) (trace w ++ evs).
Definition add_event (e : event) (w : world) : world := add_events [e] w.

(** The monad of the plugin's commands. *)
Definition M (A : Type) : Type := world -> result A * world.

#[global] Instance M_ret : MRet M := fun _ a w => (Ok a, w).
#[global] Instance M_bind : MBind M := fun _ _ k m w =>
  match m w with
  | (Ok a, w') => k a w'
  | (Raise e, w') => (Raise e, w')
  end.

Definition lift {A} (r : result A) : M A := fun w => (r, w).
Definition raise {A} (e : exn) : M A := fun w => (Raise e, w).
Definition get : M world := fun w => (Ok w, w).
Definition modify (f : world -> world) : M unit := fun w => (Ok tt, f w).
Definition log (e : event) : M unit := modify (add_event e).

(** [try: m except Exception as err: h err] *)
Definition try_except {A} (m : M A) (h : exn -> M A) : M A := fun w =>
  match m w with
  | (Ok a, w') => (Ok a, w')
  | (Raise e, w') => h e w'
  end.

(** [for x in l: body x] *)
Fixpoint for_each {A} (l : list A) (body : A -> M unit) : M unit :=
  match l with
  | [] => mret tt
  | x :: rest => body x ;; for_each rest body
  end.

Definition KEY : string := "pyyapf".

(** [sublime.error_message] *)
Definition error_message (m : modal) : M unit := log (ErrorMessage m).

(** [view.substr], [view.size], [view.replace] *)
Definition view_substr (r : region) : M (list N) :=
  w ← get ;
  mret (firstn (region_end r - region_begin r) (skipn (region_begin r) (view_text w))).

Definition view_size : M nat := w ← get ; mret (length (view_text w)).

Definition view_replace (r : region) (text : list N) : M unit :=
  w ← get ;
  modify (set_view_text (firstn (region_begin r) (view_text w) ++ text
                           ++ skipn (region_end r) (view_text w))) ;;
  log (Replace r text).

(** [tempfile.mkstemp(suffix)]: the world supplies the names. *)
Definition tmp_name (n : nat) (suffix : string) : string :=
  "/tmp/tmp" +:+ NilZero.string_of_uint (Nat.to_uint n) +:+ suffix.

Definition mkstemp (suffix : string) : M string :=
  w ← get ;
  let filename := tmp_name (tmp_next w) suffix in
  modify (fun w => set_tmp_next (S (tmp_next w))
                     (set_files (<[filename := ""]> (files w)) w)) ;;
  mret filename.

(** Writing a whole file through the handle of [os.fdopen(fobj, "w")] *)
Definition write_file (filename content : string) : M unit :=
  modify (fun w => set_files (<[filename := content]> (files w)) w).

(** [os.unlink]; a [None] argument is a [TypeError]. *)
Definition os_unlink (filename : option string) : M unit :=
  match filename with
  | None => raise TypeError
  | Some f =>
      w ← get ;
      match files w !! f with
      | None => raise OSError
      | Some _ => modify (fun w => set_files (delete f (files w)) w)
      end
  end.

(** ** The [ConfigParser] module, as far as the plugin uses it *)

Module ConfigParser.

(** [RawConfigParser._sections] *)
Definition t : Type := list (string * gmap string style_value).

Definition RawConfigParser : t := [].

Definition has_section (cfg : t) (section : string) : bool :=
  existsb (fun p => String.eqb (fst p) section) cfg.

Definition add_section (section : string) (cfg : t) : result t :=
  if String.eqb (Py.lower section) "default" then Raise ValueError
  else if has_section cfg section then Raise ConfigParserError
  else Ok (cfg ++ [(section, ∅)]).

(** [optionxform]: option names are stored in lower case. *)
Definition optionxform (optionstr : string) : string := Py.lower optionstr.

Fixpoint set_in (section name : string) (value : style_value) (cfg : t)
  : option t :=
  match cfg with
  | [] => None
  | (sect, opts) :: rest =>
      if String.eqb sect section
      then Some ((sect, <[optionxform name := value]> opts) :: rest)
      else cons (sect, opts) <$> set_in section name value rest
  end.

Definition set (section name : string) (value : style_value) (cfg : t)
  : result t :=
  match set_in section name value cfg with
  | Some cfg' => Ok cfg'
  | None => Raise ConfigParserError
  end.

(** The options of a section that [write] writes: all but [__name__]. *)
Definition written_options (opts : gmap string style_value)
  : list (string * style_value) :=
  List.filter (fun kv => negb (String.eqb (fst kv) "__name__"))
              (map_to_list opts).

(** The line written for one option *)
Definition option_line (kv : string * style_value) : string :=
  fst kv +:+ " = "
    +:+ Py.replace_char "010" (String "010" (String "009" "")) (py_str (snd kv)).

Definition option_lines (opts : gmap string style_value) : list string :=
  map option_line (written_options opts).

Definition newline : string := String "010" "".

Definition section_text (name : string) (lines : list string) : string :=
  "[" +:+ name +:+ "]" +:+ newline
    +:+ Py.join "" (map (fun l => l +:+ newline) lines) +:+ newline.

(** [cfg.write(fp)]: the text written *)
Definition write (cfg : t) : string :=
  Py.join "" (map (fun p => section_text (fst p) (option_lines (snd p))) cfg).

End ConfigParser.

(** ** Codecs *)

Definition is_ascii (c : N) : bool := N.ltb c 128.

Fixpoint first_non_ascii (u : list N) : option nat :=
  match u with
  | [] => None
  | c :: rest => if is_ascii c then S <$> first_non_ascii rest else Some O
  end.

Fixpoint non_ascii_run (u : list N) : nat :=
  match u with
  | [] => O
  | c :: rest => if is_ascii c then O else S (non_ascii_run rest)
  end.

(** [u.encode('ascii')] *)
Definition ascii_encode (u : list N) : result string :=
  match first_non_ascii u with
  | None => Ok (string_of_list_ascii (map ascii_of_N u))
  | Some i =>
      Raise (UnicodeEncodeError
               (UEE "ascii" u (Z.of_nat i)
                    (Z.of_nat (i + non_ascii_run (skipn i u)))
                    "ordinal not in range(128)" ""))
  end.

(** [b.decode('ascii')] *)
Definition ascii_decode (b : string) : result (list N) :=
  let u := map N_of_ascii (list_ascii_of_string b) in
  match first_non_ascii u with
  | None => Ok u
  | Some _ => Raise UnicodeDecodeError
  end.

Section Plugin.

(** The codecs other than ascii that the host's Python knows (an unknown
    name is a [LookupError]), and the formatter: given its argument list
    and the file system it leaves a file system and its stderr text;
    [None] when the process cannot be started. *)
Variable other_encode : string -> list N -> result string.
Variable other_decode : string -> string -> result (list N).
Variable formatter :
  list string -> gmap string string -> option (gmap string string * string).

Definition py_encode (encoding : string) (u : list N) : result string :=
  if String.eqb encoding "ascii" then ascii_encode u
  else other_encode encoding u.

Definition py_decode (encoding : string) (b : string) : result (list N) :=
  if String.eqb encoding "ascii" then ascii_decode b
  else other_decode encoding b.

(** [save_style_to_tempfile] (lines 61-75): the parser object that lines
    68-71 build, then the file it is written to. *)
Definition style_config (in_dict : gmap string style_value)
  : result ConfigParser.t :=
  cfg ← ConfigParser.add_section "style" ConfigParser.RawConfigParser ;
  foldl (fun acc kv => cfg ← acc ;
                       ConfigParser.set "style" (fst kv) (snd kv) cfg)
        (Ok cfg) (map_to_list in_dict).

Definition save_style_to_tempfile (in_dict : gmap string style_value)
  : M string :=
  cfg ← lift (style_config in_dict) ;
  filename ← mkstemp "" ;
  write_file filename (ConfigParser.write cfg) ;;
  mret filename.

(** Lines 96-123 of [smart_failure]: the place the [context] entry
    names, and the marker the editor puts there. *)
Definition show_context (context_dict : gmap string string) : M unit :=
  match context_dict !! "context" with
  | Some ctx =>
      let rowcol := Py.slice_1_m1 ctx in
      let rowcol :=
        Py.strip (Py.drop (Z.to_nat (Py.find "," rowcol + 1)) rowcol) in
      c ← lift (Py.first_char rowcol) ;
      pt ← (if Ascii.eqb c "("
            then
              let rowcol := Py.slice_1_m1 rowcol in
              '(row, col) ← lift (Py.unpack2 (Py.split "," rowcol)) ;
              col ← lift (Py.int col) ;
              row ← lift (Py.int row) ;
              mret (TextPoint (row - 1) (col - 1))
            else
              n ← lift (Py.int rowcol) ;
              mret (CharIndex n)) ;
      log (EraseRegions KEY) ;;
      log (AddRegions KEY pt "pyyapf" "dot") ;;
      log (ShowAtCenter pt)
  | None => mret tt
  end.

(** [YapfCommand.smart_failure] (lines 85-123) *)
Definition smart_failure (in_failure : failure) : M unit :=
  '(err, msg, context_dict) ← lift (failure_parser in_failure) ;
  error_message (Parsed err msg context_dict) ;;
  show_context context_dict.

(** [YapfCommand.save_selection_to_tempfile] (lines 125-141); the result
    is [None] where the Python function returns nothing. *)
Definition save_selection_to_tempfile (selection : region) (encoding : string)
  : M (option string) :=
  filename ← mkstemp ".py" ;
  text ← view_substr selection ;
  log (Encode encoding text) ;;
  match py_encode encoding text with
  | Raise (UnicodeEncodeError err) =>
      smart_failure (FailureException err) ;;
      mret None
  | Raise e => raise e
  | Ok encoded =>
      write_file filename encoded ;;
      mret (Some filename)
  end.

(** [subprocess.Popen(cmd, stderr=PIPE)] and [proc.communicate()]: the
    stderr text.  An argument that is [None] is a [TypeError]: no process
    is started then. *)
Definition popen_communicate (cmd : list (option string)) : M string :=
  match mapM id cmd with
  | None => raise TypeError
  | Some argv =>
      log (Popen argv) ;;
      w ← get ;
      match formatter argv (files w) with
      | None => raise OSError
      | Some (fs, output_err) =>
          modify (set_files fs) ;;
          mret output_err
      end
  end.

(** [codecs.open(filename, encoding=encoding)], [read()] and [close()] *)
Definition codecs_open_read (filename : option string) (encoding : string)
  : M (list N) :=
  match filename with
  | None => raise TypeError
  | Some f =>
      log (CodecsOpen f encoding) ;;
      w ← get ;
      match files w !! f with
      | None => raise IOError
      | Some b => lift (py_decode encoding b)
      end
  end.

Definition settings_get {A} (field : settings -> option A) (default : A)
  : M A :=
  w ← get ; mret (from_option id default (field (plugin_settings w))).

(** Lines 158-165: the region to format, if any. *)
Definition choose_selection (r : region) : M (option region) :=
  if region_empty r then
    use ← settings_get use_entire_file_if_no_selection true ;
    if use : bool then
      size ← view_size ;
      mret (Some (Region 0 size))
    else
      error_message (Plain "A selection is required") ;;
      mret None
  else mret (Some r).

(** Lines 187-197: put the formatted text in the view, or report what
    the formatter wrote to stderr. *)
Definition replace_or_report (selection : region) (output : list N)
           (output_err : string) : M unit :=
  if String.eqb output_err ""
  then view_replace selection output
  else try_except (smart_failure (FailureText output_err))
                  (fun _ => error_message (Plain output_err)).

(** Lines 168-200: format one selection. *)
Definition format_selection (selection : region) (encoding : string)
  : M unit :=
  py_filename ← save_selection_to_tempfile selection encoding ;
  style ← settings_get config ∅ ;
  style_filename ← save_style_to_tempfile style ;
  yapf ← settings_get yapf_command "/usr/local/bin/yapf" ;
  let cmd := [Some yapf; Some ("--style=" +:+ style_filename);
              Some "--verify"; Some "--in-place"; py_filename] in
  output_err ← popen_communicate cmd ;
  output ← codecs_open_read py_filename encoding ;
  replace_or_report selection output output_err ;;
  os_unlink py_filename ;;
  os_unlink (Some style_filename).

(** The body of the loop of [run] (lines 158-200).  A [Region] object
    counts as true at line 167: only [None] skips the formatting. *)
Definition run_region (encoding : string) (r : region) : M unit :=
  selection ← choose_selection r ;
  match selection with
  | Some selection => format_selection selection encoding
  | None => mret tt
  end.

(** [YapfCommand.run] (lines 143-202).  The loop goes through the regions
    the view has when the loop starts. *)
Definition run : M unit :=
  w ← get ;
  let encoding := view_encoding w in
  let encoding :=
    if String.eqb encoding "Undefined" then "ascii" else encoding in
  for_each (view_sel w) (run_region encoding).

End Plugin.


(** ** The parser's rules, as the specification words them

    The last line of the text is cut at its colons into an error name, a
    message and a detail (the rest).  For [UnicodeEncodeError] a context
    entry holds a character offset.  Otherwise the words of the detail that
    hold an [=] are [key=value] pairs; the words that follow a pair, up to
    the next pair, are fragments joined back onto its value. *)

Module Rules.

Definition to_option {A} (r : result A) : option A :=
  match r with Ok a => Some a | Raise _ => None end.

Definition words (detail : string) : list string :=
  List.filter (fun e => negb (String.eqb e ""))
              (map Py.strip (Py.split " " detail)).

Definition is_pair (e : string) : bool := Py.contains "=" e.

(** The words before the first pair, and each pair with its fragments. *)
Fixpoint group (ws : list string)
  : list string * list (string * list string) :=
  match ws with
  | [] => ([], [])
  | e :: rest =>
      let '(frags, chunks) := group rest in
      if is_pair e then ([], (e, frags) :: chunks)
      else (e :: frags, chunks)
  end.

Definition ends_with_comma (value : string) : bool :=
  match Py.last_char value with
  | Ok c => Ascii.eqb c ","
  | Raise _ => false
  end.

(** The value of a pair with its fragments joined back on; a comma taken
    off the value comes back, with a space, before the first fragment. *)
Definition rejoin (value : string) (frags : list string) : string :=
  foldl String.append (Py.rstrip_char "," value)
        (match frags with
         | f :: fs => (if ends_with_comma value then ", " +:+ f else f) :: fs
         | [] => []
         end).

Definition pair_of (chunk : string * list string) : option (string * string) :=
  match Py.split "=" (fst chunk) with
  | [k; value] =>
      if String.eqb value "" then None
      else Some (k, rejoin value (snd chunk))
  | _ => None
  end.

Definition pairs_dict (detail : string) : option (gmap string string) :=
  match group (words detail) with
  | ([], chunks) =>
      ps ← mapM pair_of chunks ;
      Some (foldl (fun d kv => <[fst kv := snd kv]> d) ∅ ps)
  | _ => None
  end.


End Rules.

(** ** Kinds of events *)

(** The calls to the editor that report a failure and mark its place. *)
Definition editor_event (e : event) : Prop :=
  match e with
  | ErrorMessage _ | EraseRegions _ | AddRegions _ _ _ _ | ShowAtCenter _ => True
  | _ => False
  end.

(** ** The temporary files of one formatting *)

(** The section the style file is written from: the settings under their
    lower-case names. *)
Definition style_section (in_dict : gmap string style_value)
  : gmap string style_value :=
  foldl (fun opts kv => <[ConfigParser.optionxform (fst kv) := snd kv]> opts)
        ∅ (map_to_list in_dict).

Definition style_text (in_dict : gmap string style_value) : string :=
  ConfigParser.section_text "style" (ConfigParser.option_lines (style_section in_dict)).

Definition py_name (w : world) : string := tmp_name (tmp_next w) ".py".
Definition style_name (w : world) : string := tmp_name (S (tmp_next w)) "".

Definition style_setting (w : world) : gmap string style_value :=
  from_option id ∅ (config (plugin_settings w)).

Definition yapf_setting (w : world) : string :=
  from_option id "/usr/local/bin/yapf" (yapf_command (plugin_settings w)).

(** The text of a selection *)
Definition substr (selection : region) (w : world) : list N :=
  firstn (region_end selection - region_begin selection)
         (skipn (region_begin selection) (view_text w)).

(** The argument list of the formatter *)
Definition command (w : world) : list string :=
  [yapf_setting w; "--style=" +:+ style_name w; "--verify"; "--in-place";
   py_name w].

(** The file system the formatter is started on: the two temporary files
    are in it. *)
Definition staged_files (encoded : string) (w : world) : gmap string string :=
  <[style_name w := style_text (style_setting w)]>
    (<[py_name w := encoded]> (files w)).



Definition not_popen (e : event) : Prop :=
  match e with
  | Popen _ => False
  | _ => True
  end.

(** ** Example worlds *)

(** A host with no codec but ascii, and a formatter that leaves the file
    as it is and writes [output_err] to stderr. *)
Definition no_encode (_ : string) (_ : list N) : result string :=
  Raise LookupError.
Definition no_decode (_ : string) (_ : string) : result (list N) :=
  Raise LookupError.
Definition idle_formatter (output_err : string) (_ : list string)
           (fs : gmap string string) : option (gmap string string * string) :=
  Some (fs, output_err).

(** The view of [non_ascii_world] with two regions selected, the first of
    which holds the character that is not ascii. *)
Definition two_region_world : world :=
  World [99; 97; 102; 233]%N "Undefined" [Region 0 4; Region 0 3]
        (Settings None None None) ∅ 0 [].

(** A formatter that cannot be started, and one that leaves a byte in the
    source file that is not ascii. *)
Definition missing_formatter (_ : list string) (_ : gmap string string)
  : option (gmap string string * string) := None.
Definition garbling_formatter (argv : list string) (fs : gmap string string)
  : option (gmap string string * string) :=
  Some (<[List.last argv "" := String "233" ""]> fs, "yapf: internal error").

(** A view of undefined encoding that shows [x = 1], nothing selected. *)
Definition ascii_world : world :=
  World [120; 32; 61; 32; 49]%N "Undefined" [Region 0 0]
        (Settings None None None) ∅ 0 [].

(** The same with a buffer that is not ascii: [caf\xe9]. *)
Definition non_ascii_world : world :=
  World [99; 97; 102; 233]%N "Undefined" [Region 0 0]
        (Settings None None None) ∅ 0 [].

(** The last line of a yapf traceback, of the kind the comment at line 97
    describes. *)
Definition parse_error_text : string :=
  "Traceback (most recent call last):" +:+ ConfigParser.newline
    +:+ "lib2to3.pgen2.parse.ParseError: bad input: type=1, value=u'foo', context=('', (46, 44))"
    +:+ ConfigParser.newline.

(** Lines 98-111 of [smart_failure]: the place a [context] value names.
    No call to the editor is made before these lines are through. *)
Definition context_point (ctx : string) : result point :=
  let rowcol := Py.slice_1_m1 ctx in
  let rowcol :=
    Py.strip (Py.drop (Z.to_nat (Py.find "," rowcol + 1)) rowcol) in
  c ← Py.first_char rowcol ;
  if Ascii.eqb c "("
  then
    let rowcol := Py.slice_1_m1 rowcol in
    '(row, col) ← Py.unpack2 (Py.split "," rowcol) ;
    col ← Py.int col ;
    row ← Py.int row ;
    Ok (TextPoint (row - 1) (col - 1))
  else
    n ← Py.int rowcol ;
    Ok (CharIndex n).

(** The three calls that put the marker at a point (lines 116-121). *)
Definition mark_events (pt : point) : list event :=
  [EraseRegions KEY; AddRegions KEY pt "pyyapf" "dot"; ShowAtCenter pt].

(** ** Definitions for the proofs *)

(** The loop body on a word that is already stripped and not empty. *)
Definition step (st : scan) (element : string) : result scan :=
  if Py.contains "=" element then
    '(k, value) ← Py.unpack2 (Py.split "=" element) ;
    c ← Py.last_char value ;
    let value := Py.rstrip_char "," value in
    Ok (Scan (<[k := value]> (tval st)) (Ascii.eqb c ",") (Some k))
  else
    let element := if stripped_comma st then ", " +:+ element else element in
    match key st with
    | None => Raise KeyError
    | Some k =>
        match tval st !! k with
        | None => Raise KeyError
        | Some old => Ok (Scan (<[k := old +:+ element]> (tval st)) false (Some k))
        end
    end.

(** The loop over words that are stripped and not empty. *)
Fixpoint steps (st : scan) (ws : list string) : result scan :=
  match ws with
  | [] => Ok st
  | e :: rest => st' ← step st e ; steps st' rest
  end.

(** The words of a grouping, in their order. *)
Definition flatten (chunks : list (string * list string)) : list string :=
  flat_map (fun ch => fst ch :: snd ch) chunks.

(** A chunk starts with a pair and goes on with fragments. *)
Definition chunk_ok (ch : string * list string) : Prop :=
  Rules.is_pair (fst ch) = true
  /\ Forall (fun f => Rules.is_pair f = false) (snd ch).

(** Decimal digits, and strings made of one kind of character. *)
Definition is_digit (a : ascii) : bool :=
  let n := N_of_ascii a in (N.leb 48 n && N.leb n 57)%bool.

Fixpoint all_chars (p : ascii -> bool) (s : string) : bool :=
  match s with
  | EmptyString => true
  | String a s' => (p a && all_chars p s')%bool
  end.

(** The characters of a number written with [%i]. *)
Definition sign_or_digit (a : ascii) : bool :=
  (is_digit a || Ascii.eqb a "-")%bool.

(** Every event the command [m] adds to the trace satisfies [P],
    whether [m] returns or raises. *)
Definition emits {A} (P : event -> Prop) (m : M A) : Prop :=
  forall w, exists evs, trace (snd (m w)) = trace w ++ evs /\ Forall P evs.

(** The command [m] only adds events to the trace, all of them in [P];
    its result and its events are the same in every world. *)
Definition logs_only {A} (P : event -> Prop) (m : M A) : Prop :=
  exists r evs, Forall P evs /\ forall w, m w = (r, add_events evs w).


Section Outcome.

Variable other_encode : string -> list N -> result string.
Variable other_decode : string -> string -> result (list N).
Variable formatter :
  list string -> gmap string string -> option (gmap string string * string).

(** The formatter ran and its file could be read: the four facts that
    take a formatting to line 187. *)
Definition formatted selection encoding w encoded fs output_err b output
  : Prop :=
  py_encode other_encode encoding (substr selection w) = Ok encoded
  /\ formatter (command w) (staged_files encoded w) = Some (fs, output_err)
  /\ fs !! py_name w = Some b
  /\ py_decode other_decode encoding b = Ok output.

End Outcome.

Definition example_style : gmap string style_value :=
  {[ "based_on_style" := VStr "pep8"; "COLUMN_LIMIT" := VInt 79 ]}.

Definition empty_world : world :=
  World [] "UTF-8" [] (Settings None None None) ∅ 0 [].

(** * Properties *)

(** ** Strings *)

Section StringFacts.

Lemma append_assoc (s1 s2 s3 : string) :
  (s1 +:+ s2) +:+ s3 = s1 +:+ (s2 +:+ s3).
Proof.
  induction s1 as [|a s1 IH]; [reflexivity|].
  change (String a ((s1 +:+ s2) +:+ s3) = String a (s1 +:+ (s2 +:+ s3))).
  f_equal. exact IH.
Qed.

Lemma split_nonempty c s : Py.split c s <> [].
Proof.
  destruct s as [|a s]; simpl; [discriminate|].
  destruct (Ascii.eqb a c); [discriminate|].
  destruct (Py.split c s); discriminate.
Qed.

Lemma last_item_split c s :
  Py.last_item (Py.split c s) = Ok (List.last (Py.split c s) "").
Proof.
  pose proof (split_nonempty c s) as H.
  destruct (Py.split c s) as [|x l]; [congruence|].
  simpl. f_equal. clear H. revert x. induction l as [|y l IH]; intros x; [reflexivity|].
  simpl in *. destruct l; [reflexivity|]. apply IH.
Qed.

(** A string without the separator is a single field. *)
Lemma split_no_sep c s : Py.contains c s = false -> Py.split c s = [s].
Proof.
  induction s as [|a s IH]; simpl; [reflexivity|].
  destruct (Ascii.eqb a c); simpl; [discriminate|].
  intros H. rewrite (IH H). reflexivity.
Qed.

(** Splitting distributes over a separator in the middle. *)
Lemma split_app c s1 s2 :
  Py.split c (s1 +:+ String c s2) = Py.split c s1 ++ Py.split c s2.
Proof.
  induction s1 as [|a s1 IH]; simpl.
  - rewrite Ascii.eqb_refl. reflexivity.
  - destruct (Ascii.eqb a c); [rewrite IH; reflexivity|].
    rewrite IH. pose proof (split_nonempty c s1) as H.
    destruct (Py.split c s1); [congruence|]. reflexivity.
Qed.

Lemma last_app_nonempty (l1 l2 : list string) d :
  l2 <> [] -> List.last (l1 ++ l2) d = List.last l2 d.
Proof.
  intros H. induction l1 as [|x l1 IH]; [reflexivity|].
  simpl. destruct (l1 ++ l2) eqn:E; [|exact IH].
  destruct l1, l2; simpl in E; congruence.
Qed.

Lemma split_singleton c s h : Py.split c s = [h] -> h = s.
Proof.
  revert h. induction s as [|a s IH]; simpl; intros h H; [congruence|].
  pose proof (split_nonempty c s) as Hne.
  destruct (Ascii.eqb a c); [congruence|].
  destruct (Py.split c s) as [|h' t]; [congruence|].
  injection H as <- ->. f_equal. apply IH. reflexivity.
Qed.

(** The last field of a split is a suffix of the string. *)
Lemma split_last_suffix c s :
  exists pre, s = pre +:+ List.last (Py.split c s) "".
Proof.
  induction s as [|a s [pre IH]].
  - exists "". reflexivity.
  - pose proof (split_nonempty c s) as H. cbn [Py.split].
    destruct (Ascii.eqb a c).
    + exists (String a pre). destruct (Py.split c s) as [|h t]; [congruence|].
      change (String a s = String a (pre +:+ List.last (h :: t) "")).
      f_equal. exact IH.
    + destruct (Py.split c s) as [|h t] eqn:E; [congruence|].
      destruct t as [|h' t].
      * exists "". change (String a s = String a h).
        f_equal. symmetry. eapply split_singleton, E.
      * exists (String a pre).
        change (String a s = String a (pre +:+ List.last (h :: h' :: t) "")).
        f_equal. exact IH.
Qed.

Lemma rstrip_idem p s :
  Py.rstrip_by p (Py.rstrip_by p s) = Py.rstrip_by p s.
Proof.
  induction s as [|a s IH]; [reflexivity|]. cbn [Py.rstrip_by].
  destruct (Py.rstrip_by p s) as [|b r] eqn:E.
  - destruct (p a) eqn:Ea; [reflexivity|]. cbn. rewrite Ea. reflexivity.
  - cbn [Py.rstrip_by]. cbn [Py.rstrip_by] in IH. rewrite IH. reflexivity.
Qed.

(** A suffix of a string without trailing [p]-characters has none. *)
Lemma rstrip_suffix p x y :
  Py.rstrip_by p (x +:+ y) = x +:+ y -> Py.rstrip_by p y = y.
Proof.
  induction x as [|a x IH]; [exact id|].
  change (String a x +:+ y) with (String a (x +:+ y)). cbn [Py.rstrip_by].
  destruct (Py.rstrip_by p (x +:+ y)) as [|b r] eqn:E.
  - destruct (p a); [discriminate|]. intros H. injection H as H. exact (IH H).
  - intros H. injection H as H. exact (IH H).
Qed.

Lemma lstrip_decompose p s :
  exists ws, s = ws +:+ Py.lstrip_by p s
             /\ forall c, (forall a, p a = true -> Ascii.eqb a c = false) ->
                          Py.contains c ws = false.
Proof.
  induction s as [|a s (ws & IH & Hws)].
  - exists "". split; [reflexivity|]. reflexivity.
  - cbn [Py.lstrip_by]. destruct (p a) eqn:Ea.
    + exists (String a ws). split.
      * change (String a s = String a (ws +:+ Py.lstrip_by p s)). f_equal. exact IH.
      * intros c Hc. cbn. rewrite (Hc a Ea), (Hws c Hc). reflexivity.
    + exists "". split; reflexivity.
Qed.

Lemma split_skip_prefix c ws x :
  Py.contains c ws = false ->
  skipn 1 (Py.split c (ws +:+ x)) = skipn 1 (Py.split c x).
Proof.
  induction ws as [|a ws IH]; [reflexivity|]. cbn [Py.contains].
  intros H. apply orb_false_iff in H as [Ha Hws].
  change (String a ws +:+ x) with (String a (ws +:+ x)). cbn [Py.split].
  rewrite Ha, <- (IH Hws). pose proof (split_nonempty c (ws +:+ x)).
  destruct (Py.split c (ws +:+ x)); [congruence|]. reflexivity.
Qed.

Lemma space_not_colon a : Py.is_space a = true -> Ascii.eqb a ":" = false.
Proof. destruct a as [[] [] [] [] [] [] [] []]; vm_compute; congruence. Qed.

(** Line 31 strips the last line again before it takes the detail; the
    detail is all the same made of the fields of the last line itself. *)
Lemma detail_fields s :
  skipn 2 (Py.split ":" (Py.strip (lastline s)))
  = skipn 2 (Py.split ":" (lastline s)).
Proof.
  unfold lastline.
  destruct (split_last_suffix "010" (Py.strip s)) as [pre Hpre].
  set (l := List.last (Py.split "010" (Py.strip s)) "") in *.
  assert (Hl : Py.rstrip_by Py.is_space l = l).
  { apply (rstrip_suffix _ pre). rewrite <- Hpre. apply rstrip_idem. }
  destruct (lstrip_decompose Py.is_space l) as (ws & Hws & Hc).
  assert (Hs : Py.strip l = Py.lstrip_by Py.is_space l).
  { unfold Py.strip. apply (rstrip_suffix _ ws). rewrite <- Hws. exact Hl. }
  rewrite Hs. rewrite Hws at 2.
  change 2%nat with (1 + 1)%nat. rewrite <- !skipn_skipn. f_equal.
  symmetry. apply split_skip_prefix, Hc, space_not_colon.
Qed.

End StringFacts.

(** ** The loop over the words of the detail *)

(** A bind whose first part has returned. *)
Ltac bind_ok :=
  repeat (change (mbind ?g (Ok ?a)) with (g a); cbn beta).

Section ScanFacts.

Import Rules.

Lemma scan_element_step st e :
  scan_element st e
  = if String.eqb (Py.strip e) "" then Ok st else step st (Py.strip e).
Proof. reflexivity. Qed.

Lemma scan_elements_words st detail_words :
  scan_elements st detail_words
  = steps st (List.filter (fun e => negb (String.eqb e ""))
                          (map Py.strip detail_words)).
Proof.
  revert st. induction detail_words as [|e l IH]; intros st; [reflexivity|].
  cbn [scan_elements map List.filter]. rewrite scan_element_step.
  destruct (String.eqb (Py.strip e) ""); cbn [negb].
  - apply IH.
  - cbn [steps]. destruct (step st (Py.strip e)); [apply IH | reflexivity].
Qed.

Lemma steps_app st l1 l2 :
  steps st (l1 ++ l2) = (st' ← steps st l1 ; steps st' l2).
Proof.
  revert st. induction l1 as [|e l1 IH]; intros st; [reflexivity|].
  cbn [app steps]. destruct (step st e) as [st'|x]; [apply IH | reflexivity].
Qed.

Lemma group_spec ws :
  ws = fst (group ws) ++ flatten (snd (group ws))
  /\ Forall (fun f => is_pair f = false) (fst (group ws))
  /\ Forall chunk_ok (snd (group ws)).
Proof.
  induction ws as [|e ws (Hflat & Hlead & Hch)]; [repeat constructor|].
  cbn [group]. destruct (group ws) as [frags chunks]. cbn [fst snd] in *.
  destruct (is_pair e) eqn:E; cbn [fst snd].
  - split; [|split].
    + cbn. f_equal. exact Hflat.
    + constructor.
    + constructor; [split; assumption | assumption].
  - split; [|split].
    + cbn. f_equal. exact Hflat.
    + constructor; assumption.
    + assumption.
Qed.

(** Fragments are appended to the value of the current key. *)
Lemma steps_fragments fs : forall st k v,
  Forall (fun f => is_pair f = false) fs ->
  key st = Some k -> tval st !! k = Some v ->
  steps st fs
  = Ok (Scan (<[k := foldl String.append v
                       (match fs with
                        | f :: fs' =>
                            (if stripped_comma st then ", " +:+ f else f) :: fs'
                        | [] => []
                        end)]> (tval st))
             (match fs with [] => stripped_comma st | _ => false end)
             (Some k)).
Proof.
  induction fs as [|f fs IH]; intros [tv sc ky] k v Hfs Hk Hv; cbn in Hk, Hv.
  - cbn. subst ky. rewrite insert_id by assumption. reflexivity.
  - inversion Hfs as [|? ? Hf Hfs']; subst. cbn [steps]. unfold step.
    unfold is_pair in Hf. rewrite Hf. cbn [key tval stripped_comma]. rewrite Hv.
    bind_ok.
    rewrite (IH _ k (v +:+ (if sc then ", " +:+ f else f))); cbn [key tval stripped_comma];
      [| assumption | reflexivity | apply lookup_insert_eq].
    rewrite insert_insert_eq. destruct fs; reflexivity.
Qed.

(** A word without [=] before any pair has no key to go to. *)
Lemma steps_leading st f fs :
  is_pair f = false -> key st = None -> steps st (f :: fs) = Raise KeyError.
Proof.
  intros Hf Hk. cbn [steps]. unfold step. unfold is_pair in Hf.
  rewrite Hf, Hk. reflexivity.
Qed.

(** A pair and its fragments set one entry of the dictionary. *)
Lemma steps_chunk st ch :
  chunk_ok ch ->
  match pair_of ch with
  | Some kv =>
      exists sc, steps st (fst ch :: snd ch)
                 = Ok (Scan (<[fst kv := snd kv]> (tval st)) sc (Some (fst kv)))
  | None => exists x, steps st (fst ch :: snd ch) = Raise x
  end.
Proof.
  destruct ch as [e fs]. intros [He Hfs]. cbn [fst snd] in *.
  unfold pair_of. cbn [steps fst snd].
  assert (Hstep : step st e
                  = ('(k, value) ← Py.unpack2 (Py.split "=" e) ;
                     c ← Py.last_char value ;
                     Ok (Scan (<[k := Py.rstrip_char "," value]> (tval st))
                              (Ascii.eqb c ",") (Some k)))).
  { unfold step. unfold is_pair in He. rewrite He. reflexivity. }
  rewrite Hstep. clear Hstep.
  destruct (Py.split "=" e) as [|k [|value [|? ?]]]; try (eexists; reflexivity).
  cbn [Py.unpack2]. bind_ok. cbn iota.
  destruct value as [|a value]; [eexists; reflexivity|].
  change (String.eqb (String a value) "") with false. cbn iota.
  destruct (Py.last_char (String a value)) as [c|x] eqn:Ec.
  2:{ exfalso. clear -Ec. revert a Ec. induction value as [|b value IH]; intros a Ec.
      - discriminate.
      - apply (IH b). exact Ec. }
  bind_ok.
  erewrite steps_fragments; [| exact Hfs | reflexivity | apply lookup_insert_eq].
  cbn [tval stripped_comma fst snd]. rewrite insert_insert_eq.
  eexists. unfold rejoin, ends_with_comma. rewrite Ec. reflexivity.
Qed.

Lemma steps_chunks chunks : forall st,
  Forall chunk_ok chunks ->
  match mapM pair_of chunks with
  | Some ps =>
      exists sc ky,
        steps st (flatten chunks)
        = Ok (Scan (foldl (fun d kv => <[fst kv := snd kv]> d) (tval st) ps) sc ky)
  | None => exists x, steps st (flatten chunks) = Raise x
  end.
Proof.
  induction chunks as [|ch chunks IH]; intros st Hok.
  - cbn. destruct st. eexists _, _. reflexivity.
  - inversion Hok as [|? ? Hch Hrest]; subst.
    change (flatten (ch :: chunks)) with ((fst ch :: snd ch) ++ flatten chunks).
    rewrite steps_app. cbn [mapM].
    pose proof (steps_chunk st ch Hch) as H1.
    destruct (pair_of ch) as [kv|]; cbn -[steps step].
    + destruct H1 as [sc ->]. bind_ok.
      specialize (IH (Scan (<[fst kv := snd kv]> (tval st)) sc (Some (fst kv))) Hrest).
      destruct (mapM pair_of chunks) as [ps|]; cbn -[steps step]; exact IH.
    + destruct H1 as [x ->]. eexists. reflexivity.
Qed.

(** The loop computes the dictionary of the grouped pairs, and raises
    exactly when the grouping has none. *)
Lemma scan_elements_rules detail :
  to_option (st ← scan_elements (Scan ∅ false None) (Py.split " " detail) ;
             Ok (tval st))
  = pairs_dict detail.
Proof.
  rewrite scan_elements_words. fold (words detail). unfold pairs_dict.
  destruct (group_spec (words detail)) as (Hflat & Hlead & Hch).
  destruct (group (words detail)) as [lead chunks]. cbn [fst snd] in *.
  rewrite Hflat. destruct lead as [|f lead].
  - cbn [app]. pose proof (steps_chunks chunks (Scan ∅ false None) Hch) as H.
    destruct (mapM pair_of chunks) as [ps|]; cbn.
    + destruct H as (sc & ky & ->). reflexivity.
    + destruct H as [x ->]. reflexivity.
  - inversion Hlead; subst. cbn [app].
    rewrite steps_leading by (assumption || reflexivity). reflexivity.
Qed.

End ScanFacts.

(** ** Decimal numerals *)

Section DecimalFacts.

Lemma digits_of_uint d : all_chars is_digit (NilEmpty.string_of_uint d) = true.
Proof. induction d; cbn; auto. Qed.

Lemma digits_of_uint_nz d : all_chars is_digit (NilZero.string_of_uint d) = true.
Proof. destruct d; try reflexivity; apply (digits_of_uint (_ d)). Qed.

Lemma all_chars_impl (p q : ascii -> bool) s :
  (forall a, p a = true -> q a = true) ->
  all_chars p s = true -> all_chars q s = true.
Proof.
  intros Hpq. induction s as [|a s IH]; [reflexivity|]. cbn.
  intros H. apply andb_true_iff in H as [Ha Hs].
  rewrite (Hpq a Ha), (IH Hs). reflexivity.
Qed.

Lemma all_chars_app p s1 s2 :
  all_chars p (s1 +:+ s2) = (all_chars p s1 && all_chars p s2)%bool.
Proof.
  induction s1 as [|a s1 IH]; [reflexivity|].
  change (String a s1 +:+ s2) with (String a (s1 +:+ s2)). cbn.
  rewrite IH. apply andb_assoc.
Qed.

Lemma all_chars_not_contains p c s :
  p c = false -> all_chars p s = true -> Py.contains c s = false.
Proof.
  intros Hc. induction s as [|a s IH]; [reflexivity|]. cbn.
  intros H. apply andb_true_iff in H as [Ha Hs]. rewrite (IH Hs).
  destruct (Ascii.eqb_spec a c) as [->|]; [congruence | reflexivity].
Qed.

(** A string without whitespace is not changed by [strip]. *)
Lemma strip_no_space s :
  all_chars (fun a => negb (Py.is_space a)) s = true -> Py.strip s = s.
Proof.
  intros H. unfold Py.strip.
  assert (Hl : Py.lstrip_by Py.is_space s = s).
  { destruct s as [|a s]; [reflexivity|]. cbn in *.
    destruct (Py.is_space a); [discriminate | reflexivity]. }
  rewrite Hl. induction s as [|a s IH]; [reflexivity|].
  cbn in H. apply andb_true_iff in H as [Ha Hs]. cbn [Py.rstrip_by].
  rewrite IH.
  - destruct s; [|reflexivity]. destruct (Py.is_space a); [discriminate | reflexivity].
  - exact Hs.
  - destruct s as [|b s]; [reflexivity|]. cbn in *.
    destruct (Py.is_space b); [discriminate | reflexivity].
Qed.

Lemma digit_not_space a : is_digit a = true -> negb (Py.is_space a) = true.
Proof. destruct a as [[] [] [] [] [] [] [] []]; vm_compute; congruence. Qed.

Lemma digit_not_sign a :
  is_digit a = true -> Ascii.eqb a "-" = false /\ Ascii.eqb a "+" = false.
Proof. destruct a as [[] [] [] [] [] [] [] []]; vm_compute; intuition congruence. Qed.

(** [int] reads an unsigned decimal numeral. *)
Lemma int_of_digits d :
  d <> Decimal.Nil ->
  Py.int (NilZero.string_of_uint d) = Ok (Z.of_N (N.of_uint d)).
Proof.
  intros Hd. unfold Py.int.
  pose proof (digits_of_uint_nz d) as Hdig.
  rewrite strip_no_space by (eapply all_chars_impl, Hdig; apply digit_not_space).
  pose proof (NilZero.usu d Hd) as Husu.
  destruct (NilZero.string_of_uint d) as [|a r] eqn:E; [discriminate|].
  cbn in Hdig. apply andb_true_iff in Hdig as [Ha _].
  destruct (digit_not_sign a Ha) as [-> ->]. rewrite Husu. reflexivity.
Qed.

Lemma fmt_int_of_N n :
  Py.fmt_int (Z.of_N n) = NilZero.string_of_uint (N.to_uint n).
Proof. destruct n; reflexivity. Qed.

Lemma N_to_uint_nonnil n : N.to_uint n <> Decimal.Nil.
Proof. destruct n; [discriminate | apply DecimalPos.Unsigned.to_uint_nonnil]. Qed.

(** [int] undoes the [%i] format. *)
Lemma int_fmt_int z : Py.int (Py.fmt_int z) = Ok z.
Proof.
  destruct z as [|p|p].
  - reflexivity.
  - change (Z.pos p) with (Z.of_N (N.pos p)). rewrite fmt_int_of_N.
    rewrite int_of_digits by apply N_to_uint_nonnil.
    rewrite DecimalN.Unsigned.of_to. reflexivity.
  - unfold Py.fmt_int. cbn [Z.to_int NilZero.string_of_int].
    unfold Py.int.
    pose proof (digits_of_uint_nz (Pos.to_uint p)) as Hdig.
    rewrite strip_no_space.
    2:{ cbn. eapply all_chars_impl, Hdig. apply digit_not_space. }
    change (Ascii.eqb "-" "-") with true. cbn iota.
    rewrite NilZero.usu by apply DecimalPos.Unsigned.to_uint_nonnil.
    change (N.of_uint (Pos.to_uint p)) with (Pos.of_uint (Pos.to_uint p)).
    rewrite DecimalPos.Unsigned.of_to. reflexivity.
Qed.

Lemma append_empty_r s : s +:+ "" = s.
Proof.
  induction s as [|a s IH]; [reflexivity|].
  change (String a (s +:+ "") = String a s). f_equal. exact IH.
Qed.

Lemma append_inj_l (p s1 s2 : string) : p +:+ s1 = p +:+ s2 -> s1 = s2.
Proof.
  induction p as [|a p IH]; [exact id|].
  change (String a (p +:+ s1) = String a (p +:+ s2) -> s1 = s2).
  intros H. injection H as H. exact (IH H).
Qed.

(** The two temporary files of one formatting have different names. *)
Lemma tmp_names_differ n m : tmp_name n ".py" <> tmp_name m "".
Proof.
  unfold tmp_name. intros H. apply append_inj_l in H.
  rewrite append_empty_r in H.
  pose proof (digits_of_uint_nz (Nat.to_uint m)) as Hm.
  rewrite <- H, all_chars_app in Hm.
  apply andb_true_iff in Hm as [_ Hm]. discriminate.
Qed.

End DecimalFacts.

(** ** The failure parser *)


(** The parser on a traceback of yapf: the three pairs, with the context
    joined back as the comment at line 97 shows it; [smart_failure] then
    marks row 45, column 43. *)
Example failure_parser_parse_error :
  failure_parser (FailureText parse_error_text)
  = Ok ("lib2to3.pgen2.parse.ParseError", " bad input",
        {[ "type" := "1"; "value" := "u'foo'"; "context" := "('', (46,44))" ]}).
Proof. vm_compute. reflexivity. Qed.

Example smart_failure_parse_error :
  exists m,
    smart_failure (FailureText parse_error_text) empty_world
    = (Ok tt,
       add_events [ErrorMessage m; EraseRegions "pyyapf";
                   AddRegions "pyyapf" (TextPoint 45 43) "pyyapf" "dot";
                   ShowAtCenter (TextPoint 45 43)] empty_world).
Proof. eexists. vm_compute. reflexivity. Qed.

(** C8: when the last line of a string holds no colon, there are not two
    fields to bind to [err] and [msg]: the unpacking raises and
    [failure_parser] returns no result. *)
Theorem failure_parser_without_colon s :
  Py.contains ":" (lastline s) = false ->
  failure_parser (FailureText s) = Raise ValueError.
Proof.
  intros H. unfold failure_parser.
  rewrite last_item_split. fold (lastline s). bind_ok.
  rewrite (split_no_sep _ _ H). reflexivity.
Qed.

Lemma failure_parser_without_colon_witness :
  Py.contains ":" (lastline "Segmentation fault") = false
  /\ failure_parser (FailureText "Segmentation fault") = Raise ValueError.
Proof.
  split; [reflexivity|].
  apply (failure_parser_without_colon "Segmentation fault"). reflexivity.
Defined.



(** ** Running a command step by step *)

Section MonadFacts.

Context {A B C : Type}.

Lemma run_ret (a : A) (k : A -> M B) w : (mret a ≫= k) w = k a w.
Proof. reflexivity. Qed.

Lemma run_lift_ok (a : A) (k : A -> M B) w : (lift (Ok a) ≫= k) w = k a w.
Proof. reflexivity. Qed.

Lemma run_lift_raise x (k : A -> M B) w :
  (lift (Raise x) ≫= k) w = (Raise x, w).
Proof. reflexivity. Qed.

Lemma run_raise x (k : A -> M B) w : (raise x ≫= k) w = (Raise x, w).
Proof. reflexivity. Qed.

Lemma run_get (k : world -> M B) w : (get ≫= k) w = k w w.
Proof. reflexivity. Qed.

Lemma run_modify f (k : unit -> M B) w : (modify f ≫= k) w = k tt (f w).
Proof. reflexivity. Qed.

Lemma run_log e (k : unit -> M B) w : (log e ≫= k) w = k tt (add_event e w).
Proof. reflexivity. Qed.

Lemma run_assoc (m : M A) (f : A -> M B) (g : B -> M C) w :
  ((m ≫= f) ≫= g) w = (m ≫= (fun a => f a ≫= g)) w.
Proof.
  unfold mbind, M_bind. destruct (m w) as [[a|x] w']; reflexivity.
Qed.

(** A command whose first part is known *)
Lemma run_bind_ok (m : M A) (k : A -> M B) w a w' :
  m w = (Ok a, w') -> (m ≫= k) w = k a w'.
Proof. intros H. unfold mbind, M_bind. rewrite H. reflexivity. Qed.

Lemma run_bind_raise (m : M A) (k : A -> M B) w x w' :
  m w = (Raise x, w') -> (m ≫= k) w = (Raise x, w').
Proof. intros H. unfold mbind, M_bind. rewrite H. reflexivity. Qed.

End MonadFacts.

Ltac mrun :=
  repeat first
    [ rewrite run_assoc | rewrite run_ret | rewrite run_lift_ok
    | rewrite run_lift_raise | rewrite run_raise | rewrite run_get
    | rewrite run_modify | rewrite run_log ].

(** Bring a world built by the setters to a single record. *)
Ltac wsimpl :=
  unfold set_view_text, set_files, set_tmp_next, add_event, add_events;
  cbn [view_text view_encoding view_sel plugin_settings files tmp_next trace].

(** ** What a command adds to the trace *)

Section TraceFacts.

Lemma emits_weaken {A} (P Q : event -> Prop) (m : M A) :
  (forall e, P e -> Q e) -> emits P m -> emits Q m.
Proof.
  intros HPQ Hm w. destruct (Hm w) as (evs & Ht & Hevs).
  exists evs. split; [exact Ht|]. eapply Forall_impl; eauto.
Qed.

Lemma emits_silent {A} P (m : M A) :
  (forall w, trace (snd (m w)) = trace w) -> emits P m.
Proof. intros H w. exists []. rewrite app_nil_r. split; [apply H | constructor]. Qed.

Lemma emits_ret {A} P (a : A) : emits P (mret a).
Proof. apply emits_silent. reflexivity. Qed.

Lemma emits_lift {A} P (r : result A) : emits P (lift r).
Proof. apply emits_silent. reflexivity. Qed.

Lemma emits_raise {A} P e : emits P (@raise A e).
Proof. apply emits_silent. reflexivity. Qed.

Lemma emits_get P : emits P get.
Proof. apply emits_silent. reflexivity. Qed.

Lemma emits_modify P f :
  (forall w, trace (f w) = trace w) -> emits P (modify f).
Proof. intros H. apply emits_silent. exact H. Qed.

Lemma emits_log (P : event -> Prop) e : P e -> emits P (log e).
Proof. intros He w. exists [e]. split; [reflexivity | repeat constructor; exact He]. Qed.

Lemma emits_bind {A B} P (m : M A) (k : A -> M B) :
  emits P m -> (forall a, emits P (k a)) -> emits P (m ≫= k).
Proof.
  intros Hm Hk w. destruct (Hm w) as (e1 & Ht1 & He1).
  unfold mbind, M_bind. destruct (m w) as [[a|x] w1]; cbn [snd] in *.
  - destruct (Hk a w1) as (e2 & Ht2 & He2). exists (e1 ++ e2).
    rewrite Ht2, Ht1, app_assoc. split; [reflexivity | apply Forall_app; auto].
  - exists e1. auto.
Qed.

Lemma emits_try {A} P (m : M A) h :
  emits P m -> (forall x, emits P (h x)) -> emits P (try_except m h).
Proof.
  intros Hm Hh w. destruct (Hm w) as (e1 & Ht1 & He1).
  unfold try_except. destruct (m w) as [[a|x] w1]; cbn [snd] in *.
  - exists e1. auto.
  - destruct (Hh x w1) as (e2 & Ht2 & He2). exists (e1 ++ e2).
    rewrite Ht2, Ht1, app_assoc. split; [reflexivity | apply Forall_app; auto].
Qed.


Lemma add_events_nil w : add_events [] w = w.
Proof. destruct w. unfold add_events. cbn. rewrite app_nil_r. reflexivity. Qed.

Lemma add_events_app l1 l2 w :
  add_events l2 (add_events l1 w) = add_events (l1 ++ l2) w.
Proof. unfold add_events. cbn. rewrite app_assoc. reflexivity. Qed.

Lemma logs_only_ret {A} P (a : A) : logs_only P (mret a).
Proof.
  exists (Ok a), []. split; [constructor|]. intros w.
  rewrite add_events_nil. reflexivity.
Qed.

Lemma logs_only_lift {A} P (r : result A) : logs_only P (lift r).
Proof.
  exists r, []. split; [constructor|]. intros w.
  rewrite add_events_nil. reflexivity.
Qed.

Lemma logs_only_log (P : event -> Prop) e : P e -> logs_only P (log e).
Proof.
  intros He. exists (Ok tt), [e].
  split; [repeat constructor; exact He | reflexivity].
Qed.

Lemma logs_only_bind {A B} P (m : M A) (k : A -> M B) :
  logs_only P m -> (forall a, logs_only P (k a)) -> logs_only P (m ≫= k).
Proof.
  intros (r1 & e1 & He1 & Hm) Hk. destruct r1 as [a|x].
  - destruct (Hk a) as (r2 & e2 & He2 & Hka). exists r2, (e1 ++ e2).
    split; [apply Forall_app; auto|]. intros w.
    rewrite (run_bind_ok _ _ _ _ _ (Hm w)), Hka. rewrite add_events_app. reflexivity.
  - exists (Raise x), e1. split; [exact He1|]. intros w.
    apply (run_bind_raise _ _ _ _ _ (Hm w)).
Qed.

Lemma logs_only_emits {A} P (m : M A) : logs_only P m -> emits P m.
Proof.
  intros (r & evs & Hevs & Hm) w. exists evs. rewrite Hm. split; [reflexivity | exact Hevs].
Qed.

End TraceFacts.

(** ** The plugin's commands *)

Section PluginFacts.

(** [smart_failure] talks to the editor only, and what it does is the
    same in every world. *)
Lemma show_context_logs context_dict :
  logs_only editor_event (show_context context_dict).
Proof.
  unfold show_context.
  destruct (context_dict !! "context"); [|apply logs_only_ret].
  apply logs_only_bind; [apply logs_only_lift|]. intros c.
  apply logs_only_bind.
  - destruct (Ascii.eqb c "(").
    + apply logs_only_bind; [apply logs_only_lift|]. intros [row col].
      apply logs_only_bind; [apply logs_only_lift|]. intros col'.
      apply logs_only_bind; [apply logs_only_lift|]. intros row'.
      apply logs_only_ret.
    + apply logs_only_bind; [apply logs_only_lift|]. intros n.
      apply logs_only_ret.
  - intros pt.
    apply logs_only_bind; [apply logs_only_log; exact I|]. intros _.
    apply logs_only_bind; [apply logs_only_log; exact I|]. intros _.
    apply logs_only_log; exact I.
Qed.

Lemma smart_failure_logs in_failure :
  logs_only editor_event (smart_failure in_failure).
Proof.
  unfold smart_failure. apply logs_only_bind; [apply logs_only_lift|].
  intros [[err msg] context_dict].
  apply logs_only_bind; [apply logs_only_log; exact I|]. intros _.
  apply show_context_logs.
Qed.

Lemma config_set_all (l : list (string * style_value)) : forall opts,
  foldl (fun acc kv => cfg ← acc ; ConfigParser.set "style" (fst kv) (snd kv) cfg)
        (Ok [("style", opts)]) l
  = Ok [("style",
         foldl (fun opts kv => <[ConfigParser.optionxform (fst kv) := snd kv]> opts)
               opts l)].
Proof.
  induction l as [|kv l IH]; intros opts; [reflexivity|].
  cbn [foldl]. rewrite <- IH. reflexivity.
Qed.

(** The parser object has the single section [style]. *)
Lemma style_config_eq in_dict :
  style_config in_dict = Ok [("style", style_section in_dict)].
Proof. unfold style_config, style_section. apply config_set_all. Qed.

(** [save_style_to_tempfile] always returns: it makes one new file, with
    the text of the parser object, and returns its name. *)
Lemma save_style_to_tempfile_eq in_dict w :
  save_style_to_tempfile in_dict w
  = (Ok (tmp_name (tmp_next w) ""),
     set_tmp_next (S (tmp_next w))
       (set_files (<[tmp_name (tmp_next w) "" := style_text in_dict]> (files w)) w)).
Proof.
  unfold save_style_to_tempfile.
  rewrite style_config_eq, run_lift_ok.
  unfold mkstemp, write_file. mrun.
  unfold set_tmp_next, set_files.
  cbn [files tmp_next view_text view_encoding view_sel plugin_settings trace].
  rewrite insert_insert_eq. reflexivity.
Qed.

End PluginFacts.

(** ** The style file *)

Section StyleFacts.

Implicit Types (l : list (string * style_value)) (opts : gmap string style_value).





End StyleFacts.




(** ** Formatting one selection *)

Section FormatFacts.

Variable other_encode : string -> list N -> result string.
Variable other_decode : string -> string -> result (list N).
Variable formatter :
  list string -> gmap string string -> option (gmap string string * string).

Abbreviation py_encode' := (py_encode other_encode).
Abbreviation py_decode' := (py_decode other_decode).
Abbreviation save_selection' := (save_selection_to_tempfile other_encode).
Abbreviation format_selection' :=
  (format_selection other_encode other_decode formatter).
Abbreviation run_region' := (run_region other_encode other_decode formatter).
Abbreviation run' := (run other_encode other_decode formatter).
Abbreviation formatted' := (formatted other_encode other_decode formatter).

(** The selection is written to the temporary source file. *)
Lemma save_selection_ok selection encoding w encoded :
  py_encode' encoding (substr selection w) = Ok encoded ->
  save_selection' selection encoding w
  = (Ok (Some (py_name w)),
     World (view_text w) (view_encoding w) (view_sel w) (plugin_settings w)
           (<[py_name w := encoded]> (files w)) (S (tmp_next w))
           (trace w ++ [Encode encoding (substr selection w)])).
Proof.
  intros Henc. unfold save_selection_to_tempfile, mkstemp, view_substr, write_file.
  mrun. wsimpl. fold (substr selection w). rewrite Henc. mrun. wsimpl.
  rewrite insert_insert_eq. reflexivity.
Qed.

(** *** What each command adds to the trace *)



Lemma emits_os_unlink P f : emits P (os_unlink f).
Proof.
  apply emits_silent. intros w. destruct f as [f|]; [|reflexivity].
  unfold os_unlink. rewrite run_get. destruct (files w !! f); reflexivity.
Qed.



Lemma emits_settings_get {A} P (field : settings -> option A) d :
  emits P (settings_get field d).
Proof. apply emits_silent. reflexivity. Qed.

Lemma emits_view_replace (P : event -> Prop) r t :
  P (Replace r t) -> emits P (view_replace r t).
Proof.
  intros HP w. exists [Replace r t]. split; [reflexivity | repeat constructor; exact HP].
Qed.

Lemma emits_smart_failure (P : event -> Prop) in_failure :
  (forall e, editor_event e -> P e) -> emits P (smart_failure in_failure).
Proof.
  intros HP. eapply emits_weaken; [exact HP|].
  apply logs_only_emits, smart_failure_logs.
Qed.

Lemma emits_save_style P in_dict : emits P (save_style_to_tempfile in_dict).
Proof. apply emits_silent. intros w. rewrite save_style_to_tempfile_eq. reflexivity. Qed.


Lemma emits_popen (P : event -> Prop) cmd :
  (forall argv, P (Popen argv)) -> emits P (popen_communicate formatter cmd).
Proof.
  intros HP. unfold popen_communicate.
  destruct (mapM id cmd) as [argv|]; [|apply emits_raise].
  apply emits_bind; [apply emits_log, HP|]. intros _.
  apply emits_bind; [apply emits_get|]. intros w.
  destruct (formatter argv (files w)) as [[fs output_err]|]; [|apply emits_raise].
  apply emits_bind; [apply emits_modify; reflexivity | intros _; apply emits_ret].
Qed.

Lemma emits_codecs_open_read (P : event -> Prop) filename encoding :
  (forall f, P (CodecsOpen f encoding)) ->
  emits P (codecs_open_read other_decode filename encoding).
Proof.
  intros HP. unfold codecs_open_read.
  destruct filename as [f|]; [|apply emits_raise].
  apply emits_bind; [apply emits_log, HP|]. intros _.
  apply emits_bind; [apply emits_get|]. intros w.
  destruct (files w !! f); [apply emits_lift | apply emits_raise].
Qed.

Lemma emits_replace_or_report (P : event -> Prop) selection output output_err :
  (forall e, editor_event e -> P e) ->
  (forall r t, P (Replace r t)) ->
  emits P (replace_or_report selection output output_err).
Proof.
  intros Hed Hrep. unfold replace_or_report.
  destruct (String.eqb output_err "").
  - apply emits_view_replace, Hrep.
  - apply emits_try; [apply emits_smart_failure, Hed|].
    intros _. apply emits_log, Hed. exact I.
Qed.



(** Up to the start of the formatter: both temporary files are written
    and the process is started on them with its five arguments. *)
Lemma format_selection_started selection encoding w encoded fs output_err :
  py_encode' encoding (substr selection w) = Ok encoded ->
  formatter (command w) (staged_files encoded w) = Some (fs, output_err) ->
  format_selection' selection encoding w
  = (output ← codecs_open_read other_decode (Some (py_name w)) encoding ;
     replace_or_report selection output output_err ;;
     os_unlink (Some (py_name w)) ;;
     os_unlink (Some (style_name w)))
      (World (view_text w) (view_encoding w) (view_sel w) (plugin_settings w)
             fs (S (S (tmp_next w)))
             (trace w ++ [Encode encoding (substr selection w);
                          Popen (command w)])).
Proof.
  intros Henc Hfmt. unfold format_selection.
  rewrite (run_bind_ok _ _ _ _ _ (save_selection_ok _ _ _ _ Henc)).
  unfold settings_get. mrun. wsimpl.
  rewrite (run_bind_ok _ _ _ _ _ (save_style_to_tempfile_eq _ _)).
  mrun. wsimpl.
  unfold popen_communicate.
  change (mapM id [Some ?a; Some ?b; Some ?c; Some ?d; Some ?e])
    with (Some [a; b; c; d; e]).
  cbn iota. mrun. wsimpl.
  fold (style_name w) (yapf_setting w) (style_setting w).
  fold (command w).
  replace (<[style_name w := style_text (style_setting w)]>
             (<[py_name w := encoded]> (files w)))
    with (staged_files encoded w) by reflexivity.
  rewrite Hfmt. mrun. wsimpl. rewrite <- app_assoc. reflexivity.
Qed.

Lemma run_decoded {A} (k : list N -> M A) f encoding w b output :
  files w !! f = Some b ->
  py_decode' encoding b = Ok output ->
  (codecs_open_read other_decode (Some f) encoding ≫= k) w
  = k output (add_event (CodecsOpen f encoding) w).
Proof.
  intros Hf Hdec. unfold codecs_open_read. mrun.
  change (files (add_event (CodecsOpen f encoding) w)) with (files w).
  rewrite Hf, Hdec. mrun. reflexivity.
Qed.

(** What [smart_failure] does: it raises before any call when the
    parser raises, and otherwise opens with the modal dialog. *)
Lemma smart_failure_cases in_failure :
  (exists x, forall w, smart_failure in_failure w = (Raise x, w))
  \/ (exists err msg d r evs,
         Forall editor_event evs
         /\ forall w, smart_failure in_failure w
                      = (r, add_events (ErrorMessage (Parsed err msg d) :: evs) w)).
Proof.
  unfold smart_failure. destruct (failure_parser in_failure) as [[[err msg] d]|x].
  - right. destruct (show_context_logs d) as (r & evs & Hevs & Hshow).
    exists err, msg, d, r, evs. split; [exact Hevs|]. intros w.
    mrun. unfold error_message. mrun. rewrite Hshow.
    unfold add_event. rewrite add_events_app. reflexivity.
  - left. exists x. intros w. reflexivity.
Qed.

(** Lines 189-197 always return, and always show a modal dialog; when
    [smart_failure] raises, the last one shows the text of stderr. *)
Lemma report_shows_modal selection output output_err :
  output_err <> "" ->
  exists evs,
    Forall editor_event evs
    /\ (exists m, In (ErrorMessage m) evs)
    /\ (forall w, replace_or_report selection output output_err w
                  = (Ok tt, add_events evs w))
    /\ (forall w x w1,
           smart_failure (FailureText output_err) w = (Raise x, w1) ->
           exists pre, evs = pre ++ [ErrorMessage (Plain output_err)]).
Proof.
  intros Hne. unfold replace_or_report.
  destruct (String.eqb_spec output_err ""); [contradiction|].
  destruct (smart_failure_cases (FailureText output_err))
    as [[x Hsf]|(err & msg & d & r & evs & Hevs & Hsf)].
  - exists [ErrorMessage (Plain output_err)].
    split; [repeat constructor|]. split; [eexists; left; reflexivity|].
    split.
    + intros w. unfold try_except. rewrite Hsf. reflexivity.
    + intros. exists []. reflexivity.
  - destruct r as [[]|x].
    + exists (ErrorMessage (Parsed err msg d) :: evs).
      split; [constructor; [exact I | exact Hevs]|].
      split; [eexists; left; reflexivity|]. split.
      * intros w. unfold try_except. rewrite Hsf. reflexivity.
      * intros w x w1 H. rewrite Hsf in H. discriminate.
    + exists ((ErrorMessage (Parsed err msg d) :: evs) ++ [ErrorMessage (Plain output_err)]).
      split; [apply Forall_app; split; repeat constructor; exact Hevs|].
      split; [eexists; left; reflexivity|]. split.
      * intros w. unfold try_except. rewrite Hsf.
        unfold error_message, log, modify, add_event.
        rewrite add_events_app. reflexivity.
      * intros. eexists. reflexivity.
Qed.

Lemma unlink_frame (m : M unit) py style w w1 :
  m w = (Ok tt, w1) ->
  let w' := snd ((m ;; os_unlink py ;; os_unlink style) w) in
  trace w' = trace w1 /\ view_text w' = view_text w1.
Proof.
  intros Hm. rewrite (run_bind_ok _ _ _ _ _ Hm). cbn zeta.
  assert (Hu : forall f w0, trace (snd (os_unlink f w0)) = trace w0
                            /\ view_text (snd (os_unlink f w0)) = view_text w0).
  { intros [f|] w0; [|split; reflexivity]. unfold os_unlink. rewrite run_get.
    destruct (files w0 !! f); split; reflexivity. }
  unfold mbind, M_bind. pose proof (Hu py w1) as [Ht Hv].
  destruct (os_unlink py w1) as [[[]|x] w2]; cbn [snd] in *.
  - destruct (Hu style w2) as [Ht' Hv']. split; congruence.
  - split; assumption.
Qed.

Lemma unlink_both (m : M unit) py style w w1 :
  m w = (Ok tt, w1) ->
  is_Some (files w1 !! py) -> is_Some (files w1 !! style) -> py <> style ->
  (m ;; os_unlink (Some py) ;; os_unlink (Some style)) w
  = (Ok tt, set_files (delete style (delete py (files w1))) w1).
Proof.
  intros Hm [b Hpy] [c Hstyle] Hne. rewrite (run_bind_ok _ _ _ _ _ Hm).
  unfold os_unlink. mrun. rewrite Hpy. mrun. wsimpl.
  rewrite lookup_delete_ne, Hstyle by exact Hne. reflexivity.
Qed.

Lemma format_selection_decoded selection encoding w encoded fs output_err b output :
  formatted' selection encoding w encoded fs output_err b output ->
  format_selection' selection encoding w
  = (replace_or_report selection output output_err ;;
     os_unlink (Some (py_name w)) ;;
     os_unlink (Some (style_name w)))
      (World (view_text w) (view_encoding w) (view_sel w) (plugin_settings w)
             fs (S (S (tmp_next w)))
             (trace w ++ [Encode encoding (substr selection w);
                          Popen (command w);
                          CodecsOpen (py_name w) encoding])).
Proof.
  intros (Henc & Hfmt & Hb & Hdec).
  rewrite (format_selection_started _ _ _ _ _ _ Henc Hfmt).
  rewrite (run_decoded _ _ _ _ b output) by assumption.
  wsimpl. rewrite <- app_assoc. reflexivity.
Qed.

(** With nothing on stderr the text of the selection is replaced. *)
Lemma format_selection_replaced selection encoding w encoded fs b output :
  formatted' selection encoding w encoded fs "" b output ->
  trace (snd (format_selection' selection encoding w))
  = trace w ++ [Encode encoding (substr selection w); Popen (command w);
                CodecsOpen (py_name w) encoding; Replace selection output]
  /\ view_text (snd (format_selection' selection encoding w))
     = firstn (region_begin selection) (view_text w) ++ output
         ++ skipn (region_end selection) (view_text w).
Proof.
  intros H. rewrite (format_selection_decoded _ _ _ _ _ _ _ _ H).
  match goal with |- context [ (?m ;; os_unlink ?a ;; os_unlink ?c) ?w0 ] =>
    destruct (unlink_frame m a c w0 (snd (m w0)) eq_refl) as [Ht Hv]
  end.
  rewrite Ht, Hv. unfold replace_or_report, view_replace. cbn [String.eqb].
  mrun. wsimpl. unfold log, modify. wsimpl. cbn [snd trace view_text].
  rewrite <- app_assoc. split; reflexivity.
Qed.

(** With text on stderr the view is left as it is and the failure is
    reported in a modal dialog; no exception leaves lines 189-197. *)
Lemma format_selection_reported selection encoding w encoded fs output_err b output :
  formatted' selection encoding w encoded fs output_err b output ->
  output_err <> "" ->
  exists evs,
    Forall editor_event evs
    /\ (exists m, In (ErrorMessage m) evs)
    /\ trace (snd (format_selection' selection encoding w))
       = trace w ++ [Encode encoding (substr selection w); Popen (command w);
                     CodecsOpen (py_name w) encoding] ++ evs
    /\ view_text (snd (format_selection' selection encoding w)) = view_text w
    /\ (forall w0 x w1,
           smart_failure (FailureText output_err) w0 = (Raise x, w1) ->
           exists pre, evs = pre ++ [ErrorMessage (Plain output_err)])
    /\ (is_Some (fs !! style_name w) ->
        fst (format_selection' selection encoding w) = Ok tt
        /\ files (snd (format_selection' selection encoding w))
           = delete (style_name w) (delete (py_name w) fs)).
Proof.
  intros H Hne. rewrite (format_selection_decoded _ _ _ _ _ _ _ _ H).
  destruct H as (_ & _ & Hb & _).
  destruct (report_shows_modal selection output output_err Hne)
    as (evs & Hevs & Hmodal & Hrun & Hlast).
  exists evs. split; [exact Hevs|]. split; [exact Hmodal|].
  match goal with |- context [ (?m ;; os_unlink ?a ;; os_unlink ?c) ?w0 ] =>
    destruct (unlink_frame m a c w0 _ (Hrun w0)) as [Ht Hv];
    pose proof (unlink_both m (py_name w) (style_name w) w0 _ (Hrun w0)) as Hboth
  end.
  rewrite Ht, Hv. cbn [add_events trace view_text].
  split; [rewrite <- app_assoc; reflexivity|]. split; [reflexivity|].
  split; [exact Hlast|]. intros Hstyle.
  rewrite Hboth; [split; reflexivity | | | apply tmp_names_differ].
  - cbn [add_events files]. eexists; exact Hb.
  - exact Hstyle.
Qed.

(** Once the formatter has run and its file has been read, both temporary
    files are deleted, with or without text on stderr, provided the
    formatter has left the style file in place. *)
Lemma temp_files_deleted_after_formatter
      selection encoding w encoded fs output_err b output :
  formatted' selection encoding w encoded fs output_err b output ->
  is_Some (fs !! style_name w) ->
  fst (format_selection' selection encoding w) = Ok tt
  /\ files (snd (format_selection' selection encoding w))
     = delete (style_name w) (delete (py_name w) fs).
Proof.
  intros H Hstyle. destruct (String.eqb_spec output_err "") as [->|Hne].
  - rewrite (format_selection_decoded _ _ _ _ _ _ _ _ H).
    destruct H as (_ & _ & Hb & _).
    match goal with |- context [ (?m ;; os_unlink _ ;; os_unlink _) ?w0 ] =>
      rewrite (unlink_both m (py_name w) (style_name w) w0 (snd (m w0)) eq_refl)
    end; [split; reflexivity | | | apply tmp_names_differ].
    + exists b. exact Hb.
    + exact Hstyle.
  - destruct (format_selection_reported _ _ _ _ _ _ _ _ H Hne)
      as (evs & _ & _ & _ & _ & _ & Hok).
    apply Hok, Hstyle.
Qed.

(** When the selection cannot be encoded the formatting raises, and the
    temporary source file, empty, is still there afterwards. *)
Lemma format_selection_leaks_source selection encoding w e :
  py_encode' encoding (substr selection w) = Raise (UnicodeEncodeError e) ->
  (exists x, fst (format_selection' selection encoding w) = Raise x)
  /\ files (snd (format_selection' selection encoding w)) !! py_name w = Some "".
Proof.
  intros Henc.
  destruct (smart_failure_logs (FailureException e)) as (r & evs & _ & Hsf).
  unfold format_selection, save_selection_to_tempfile, mkstemp, view_substr.
  mrun. wsimpl. fold (substr selection w). rewrite Henc.
  destruct r as [[]|x].
  - rewrite run_assoc, (run_bind_ok _ _ _ _ _ (Hsf _)).
    unfold settings_get. mrun. wsimpl.
    rewrite (run_bind_ok _ _ _ _ _ (save_style_to_tempfile_eq _ _)).
    mrun. wsimpl. unfold popen_communicate.
    change (mapM id [Some ?a; Some ?b; Some ?c; Some ?d; None]) with (@None (list string)).
    cbn iota. mrun. cbn [fst snd files]. split; [eexists; reflexivity|].
    rewrite lookup_insert_ne; [apply lookup_insert_eq|].
    intros H. symmetry in H. revert H. apply tmp_names_differ.
  - rewrite run_assoc, (run_bind_raise _ _ _ _ _ (Hsf _)).
    cbn [fst snd add_events files]. split; [eexists; reflexivity|].
    apply lookup_insert_eq.
Qed.

(** *** The claims about [run] *)




(** C6: for a selection that could be encoded, the formatter is started
    once, on the two temporary files, with the configured path (by
    default [/usr/local/bin/yapf]), [--style=] and the name of the style
    file, [--verify], [--in-place] and the name of the temporary source
    file; the next call opens that same source file to read the result. *)
Theorem formatter_invoked_once selection encoding w encoded fs output_err :
  py_encode' encoding (substr selection w) = Ok encoded ->
  formatter (command w) (staged_files encoded w) = Some (fs, output_err) ->
  exists post,
    trace (snd (format_selection' selection encoding w))
    = trace w ++ [Encode encoding (substr selection w);
                  Popen [yapf_setting w; "--style=" +:+ style_name w;
                         "--verify"; "--in-place"; py_name w];
                  CodecsOpen (py_name w) encoding] ++ post
    /\ Forall not_popen post
    /\ (yapf_command (plugin_settings w) = None ->
        yapf_setting w = "/usr/local/bin/yapf")
    /\ staged_files encoded w !! py_name w = Some encoded
    /\ staged_files encoded w !! style_name w
       = Some (style_text (style_setting w)).
Proof.
  intros Henc Hfmt.
  assert (Htail : exists post,
             trace (snd (format_selection' selection encoding w))
             = trace w ++ [Encode encoding (substr selection w);
                           Popen (command w);
                           CodecsOpen (py_name w) encoding] ++ post
             /\ Forall not_popen post).
  { rewrite (format_selection_started _ _ _ _ _ _ Henc Hfmt).
    unfold codecs_open_read. mrun. wsimpl.
    destruct (fs !! py_name w) as [b|].
    - destruct (py_decode' encoding b) as [output|x]; mrun.
      + match goal with |- context [ (?m ≫= ?k) ?w0 ] =>
          destruct (emits_bind not_popen m k) with (w := w0) as (post & Ht & Hpost)
        end.
        * apply emits_replace_or_report; intros; [|exact I].
          destruct e; try exact I; contradiction.
        * intros _. apply emits_bind; [|intros _]; apply emits_os_unlink.
        * exists post. rewrite Ht. cbn [trace].
          rewrite <- !app_assoc. split; [reflexivity | exact Hpost].
      + exists []. cbn [snd trace]. rewrite <- !app_assoc. split; [reflexivity | constructor].
    - exists []. cbn [snd trace]. rewrite <- !app_assoc. split; [reflexivity | constructor]. }
  destruct Htail as (post & Ht & Hpost). exists post.
  split; [exact Ht|]. split; [exact Hpost|]. split; [|split].
  - unfold yapf_setting. intros ->. reflexivity.
  - unfold staged_files. rewrite lookup_insert_ne; [apply lookup_insert_eq|].
    intros H. symmetry in H. revert H. apply tmp_names_differ.
  - apply lookup_insert_eq.
Qed.


(** C3 does not hold of the code: when the text of the view cannot be
    encoded, [save_selection_to_tempfile] has made its file and returns
    no name for it; [run] goes on to make the style file and then raises
    on the missing name, before the two [os.unlink] calls.  Both files
    are still there when [run] ends. *)
Theorem temp_files_left_after_encode_error :
  fst (run' non_ascii_world) = Raise TypeError
  /\ files (snd (run' non_ascii_world)) !! "/tmp/tmp0.py" = Some ""
  /\ files (snd (run' non_ascii_world)) !! "/tmp/tmp1"
     = Some ("[style]" +:+ ConfigParser.newline +:+ ConfigParser.newline)
  /\ In (ErrorMessage
           (Parsed "ordinal not in range(128)" ""
                   {[ "context" := context_of_offset 3 ]}))
        (trace (snd (run' non_ascii_world))).
Proof. vm_compute. repeat split; try reflexivity. tauto. Qed.

End FormatFacts.

(** ** The claims at concrete worlds *)




Lemma formatter_invoked_once_witness :
  exists post,
    trace (snd (format_selection no_encode no_decode (idle_formatter "")
                                 (Region 0 5) "ascii" ascii_world))
    = trace ascii_world
        ++ [Encode "ascii" (substr (Region 0 5) ascii_world);
            Popen [yapf_setting ascii_world;
                   "--style=" +:+ style_name ascii_world;
                   "--verify"; "--in-place"; py_name ascii_world];
            CodecsOpen (py_name ascii_world) "ascii"] ++ post
    /\ Forall not_popen post
    /\ (yapf_command (plugin_settings ascii_world) = None ->
        yapf_setting ascii_world = "/usr/local/bin/yapf")
    /\ staged_files "x = 1" ascii_world !! py_name ascii_world = Some "x = 1"
    /\ staged_files "x = 1" ascii_world !! style_name ascii_world
       = Some (style_text (style_setting ascii_world)).
Proof.
  apply (formatter_invoked_once no_encode no_decode (idle_formatter "")
           (Region 0 5) "ascii" ascii_world "x = 1"
           (staged_files "x = 1" ascii_world) "");
    reflexivity.
Defined.


(** * Further properties *)

(** ** The text the parser looks at *)

Section LastLineFacts.

Lemma lstrip_all p s : all_chars p s = true -> Py.lstrip_by p s = "".
Proof.
  induction s as [|a s IH]; [reflexivity|]. cbn.
  intros H. apply andb_true_iff in H as [-> Hs]. exact (IH Hs).
Qed.

Lemma rstrip_all p s : all_chars p s = true -> Py.rstrip_by p s = "".
Proof.
  induction s as [|a s IH]; [reflexivity|]. cbn.
  intros H. apply andb_true_iff in H as [-> Hs]. rewrite (IH Hs). reflexivity.
Qed.

Lemma lstrip_app p s t :
  Py.lstrip_by p (s +:+ t)
  = if all_chars p s then Py.lstrip_by p t else Py.lstrip_by p s +:+ t.
Proof.
  induction s as [|a s IH]; [reflexivity|].
  change (String a s +:+ t) with (String a (s +:+ t)). cbn.
  destruct (p a); [exact IH | reflexivity].
Qed.

Lemma rstrip_app_all p s t :
  all_chars p t = true -> Py.rstrip_by p (s +:+ t) = Py.rstrip_by p s.
Proof.
  intros Ht. induction s as [|a s IH]; [apply rstrip_all, Ht|].
  change (String a s +:+ t) with (String a (s +:+ t)). cbn [Py.rstrip_by].
  rewrite IH. reflexivity.
Qed.

Lemma rstrip_app_fixed p s t :
  t <> "" -> Py.rstrip_by p t = t -> Py.rstrip_by p (s +:+ t) = s +:+ t.
Proof.
  intros Hne Ht. induction s as [|a s IH]; [exact Ht|].
  change (String a s +:+ t) with (String a (s +:+ t)). cbn [Py.rstrip_by].
  rewrite IH. destruct (s +:+ t) eqn:E; [|reflexivity].
  destruct s; [|discriminate]. cbn in E. contradiction.
Qed.

(** Whitespace around the text does not count. *)
Lemma strip_outer_space ws1 s ws2 :
  all_chars Py.is_space ws1 = true -> all_chars Py.is_space ws2 = true ->
  Py.strip (ws1 +:+ s +:+ ws2) = Py.strip s.
Proof.
  intros H1 H2. unfold Py.strip.
  rewrite lstrip_app, H1, lstrip_app.
  destruct (all_chars Py.is_space s) eqn:Hs.
  - rewrite (lstrip_all _ _ H2), (lstrip_all _ _ Hs). reflexivity.
  - apply rstrip_app_all, H2.
Qed.

(** The parser reads its text through [lastline] only. *)
Lemma failure_parser_lastline s1 s2 :
  lastline s1 = lastline s2 ->
  failure_parser (FailureText s1) = failure_parser (FailureText s2).
Proof.
  intros H. unfold failure_parser. rewrite !last_item_split.
  fold (lastline s1) (lastline s2). rewrite H. reflexivity.
Qed.

(** A line without whitespace at its ends, after a line break, is the
    last line. *)
Lemma lastline_after_break pre line :
  Py.contains "010" line = false ->
  line <> "" ->
  Py.lstrip_by Py.is_space line = line ->
  Py.rstrip_by Py.is_space line = line ->
  lastline (pre +:+ String "010" line) = line.
Proof.
  intros Hnl Hne Hl Hr. unfold lastline, Py.strip. rewrite lstrip_app.
  destruct (all_chars Py.is_space pre).
  - change (Py.lstrip_by Py.is_space (String "010" line))
      with (Py.lstrip_by Py.is_space line).
    rewrite Hl, Hr, (split_no_sep _ _ Hnl). reflexivity.
  - rewrite rstrip_app_fixed; [| discriminate |].
    + rewrite split_app, last_app_nonempty by apply split_nonempty.
      rewrite (split_no_sep _ _ Hnl). reflexivity.
    + cbn [Py.rstrip_by]. rewrite Hr. destruct line; [contradiction | reflexivity].
Qed.

Lemma lastline_single line :
  Py.contains "010" line = false ->
  Py.lstrip_by Py.is_space line = line ->
  Py.rstrip_by Py.is_space line = line ->
  lastline line = line.
Proof.
  intros Hnl Hl Hr. unfold lastline, Py.strip.
  rewrite Hl, Hr, (split_no_sep _ _ Hnl). reflexivity.
Qed.

End LastLineFacts.

(** X1: whitespace before and after the text, such as the line break that
    ends a traceback, does not change what [failure_parser] returns. *)
Theorem failure_parser_ignores_outer_space ws1 s ws2 :
  all_chars Py.is_space ws1 = true ->
  all_chars Py.is_space ws2 = true ->
  failure_parser (FailureText (ws1 +:+ s +:+ ws2))
  = failure_parser (FailureText s).
Proof.
  intros H1 H2. apply failure_parser_lastline. unfold lastline.
  rewrite strip_outer_space by assumption. reflexivity.
Qed.

Lemma failure_parser_ignores_outer_space_witness :
  failure_parser
    (FailureText (String "010" " " +:+ "IOError: no file" +:+ String "010" ""))
  = failure_parser (FailureText "IOError: no file").
Proof.
  apply (failure_parser_ignores_outer_space (String "010" " ") "IOError: no file"
           (String "010" ""));
    reflexivity.
Defined.

(** X2: only the last line of a traceback is parsed: whatever comes before
    the last line break is ignored, when the line after it is not empty and
    has no whitespace at its ends. *)
Theorem failure_parser_last_line_only pre line :
  Py.contains "010" line = false ->
  line <> "" ->
  Py.lstrip_by Py.is_space line = line ->
  Py.rstrip_by Py.is_space line = line ->
  failure_parser (FailureText (pre +:+ String "010" line))
  = failure_parser (FailureText line).
Proof.
  intros Hnl Hne Hl Hr. apply failure_parser_lastline.
  rewrite lastline_after_break, lastline_single by assumption. reflexivity.
Qed.

Lemma failure_parser_last_line_only_witness :
  failure_parser
    (FailureText ("Traceback (most recent call last):"
                    +:+ String "010" "ParseError: bad input: type=1"))
  = failure_parser (FailureText "ParseError: bad input: type=1").
Proof.
  apply (failure_parser_last_line_only "Traceback (most recent call last):"
           "ParseError: bad input: type=1");
    (reflexivity || discriminate).
Defined.

(** ** The fields of the last line *)

Section FieldFacts.

Lemma join_split c s : Py.join (String c "") (Py.split c s) = s.
Proof.
  induction s as [|a s IH]; [reflexivity|]. cbn [Py.split].
  pose proof (split_nonempty c s) as Hne.
  destruct (Ascii.eqb_spec a c) as [->|Hac].
  - destruct (Py.split c s) as [|h t]; [congruence|].
    change (Py.join (String c "") ("" :: h :: t))
      with (String c (Py.join (String c "") (h :: t))).
    rewrite IH. reflexivity.
  - destruct (Py.split c s) as [|h t]; [congruence|].
    destruct t as [|h' t].
    + cbn in *. congruence.
    + change (Py.join (String c "") (String a h :: h' :: t))
        with (String a (Py.join (String c "") (h :: h' :: t))).
      rewrite IH. reflexivity.
Qed.

Lemma split_fields_no_sep c s :
  Forall (fun f => Py.contains c f = false) (Py.split c s).
Proof.
  induction s as [|a s IH]; [repeat constructor|]. cbn [Py.split].
  destruct (Ascii.eqb a c) eqn:E; [constructor; [reflexivity | exact IH]|].
  destruct (Py.split c s) as [|h t]; [repeat constructor; cbn; rewrite E; reflexivity|].
  apply Forall_cons in IH as [Hh Ht]. constructor; [|exact Ht].
  cbn. rewrite E, Hh. reflexivity.
Qed.

(** The place of a [context] value is worked out before any call to the
    editor. *)
Lemma show_context_eq d w :
  show_context d w
  = match d !! "context" with
    | Some ctx =>
        match context_point ctx with
        | Ok pt => (Ok tt, add_events (mark_events pt) w)
        | Raise x => (Raise x, w)
        end
    | None => (Ok tt, w)
    end.
Proof.
  unfold show_context, context_point.
  destruct (d !! "context") as [ctx|]; [|reflexivity].
  destruct (Py.first_char _) as [c|x]; [|reflexivity].
  mrun. bind_ok.
  destruct (Ascii.eqb c "(").
  - destruct (Py.unpack2 _) as [[row col]|x]; [|reflexivity].
    mrun. bind_ok. cbn iota.
    destruct (Py.int col) as [c'|x]; [|reflexivity]. mrun. bind_ok.
    destruct (Py.int row) as [r'|x]; [|reflexivity]. mrun. bind_ok.
    unfold log, modify, add_event. rewrite !add_events_app. reflexivity.
  - destruct (Py.int _) as [n|x]; [|reflexivity]. mrun. bind_ok.
    unfold log, modify, add_event. rewrite !add_events_app. reflexivity.
Qed.

Lemma smart_failure_eq in_failure w :
  smart_failure in_failure w
  = match failure_parser in_failure with
    | Ok (err, msg, d) =>
        show_context d (add_event (ErrorMessage (Parsed err msg d)) w)
    | Raise x => (Raise x, w)
    end.
Proof.
  unfold smart_failure. destruct (failure_parser in_failure) as [[[err msg] d]|x];
    reflexivity.
Qed.

End FieldFacts.

(** X3: the error name and the message that [failure_parser] returns for a
    text are the first two colon fields of its last line: neither holds a
    colon, and joined with the rest by colons they give the last line
    back. *)
Theorem failure_parser_fields s err msg d :
  failure_parser (FailureText s) = Ok (err, msg, d) ->
  Py.contains ":" err = false
  /\ Py.contains ":" msg = false
  /\ exists rest, lastline s = Py.join ":" (err :: msg :: rest).
Proof.
  unfold failure_parser. rewrite last_item_split. fold (lastline s). bind_ok.
  pose proof (join_split ":" (lastline s)) as Hjoin.
  pose proof (split_fields_no_sep ":" (lastline s)) as Hno.
  destruct (Py.split ":" (lastline s)) as [|err0 [|msg0 rest]]; try discriminate.
  change (firstn 2 (err0 :: msg0 :: rest)) with [err0; msg0].
  cbn [Py.unpack2]. bind_ok. cbn iota. intros H.
  assert (E : err0 = err /\ msg0 = msg).
  { unfold mbind, result_bind, rbind in H.
    destruct (String.eqb err0 "UnicodeEncodeError").
    - destruct (Py.last_item _) as [position|]; [|discriminate H].
      destruct (Py.int position); [|discriminate H].
      injection H as -> -> _. split; reflexivity.
    - destruct (scan_elements _ _); [|discriminate H].
      injection H as -> -> _. split; reflexivity. }
  destruct E as [-> ->].
  apply Forall_cons in Hno as [He Hno]. apply Forall_cons in Hno as [Hm _].
  split; [exact He|]. split; [exact Hm|]. exists rest. symmetry. exact Hjoin.
Qed.

Lemma failure_parser_fields_witness :
  Py.contains ":" "ParseError" = false
  /\ Py.contains ":" " bad input" = false
  /\ exists rest,
      lastline "ParseError: bad input: type=1"
      = Py.join ":" ("ParseError" :: " bad input" :: rest).
Proof.
  apply (failure_parser_fields "ParseError: bad input: type=1"
           "ParseError" " bad input" {[ "type" := "1" ]}).
  vm_compute. reflexivity.
Defined.

(** X4: for a last line with a single colon and a name other than
    [UnicodeEncodeError], the dictionary is empty: [smart_failure] shows its
    dialog, puts no marker and returns. *)
Theorem smart_failure_without_detail s err msg w :
  lastline s = err +:+ ":" +:+ msg ->
  Py.contains ":" err = false ->
  Py.contains ":" msg = false ->
  err <> "UnicodeEncodeError" ->
  smart_failure (FailureText s) w
  = (Ok tt, add_event (ErrorMessage (Parsed err msg ∅)) w).
Proof.
  intros Hline He Hm Hne.
  assert (Hfields : Py.split ":" (lastline s) = [err; msg]).
  { rewrite Hline. change (err +:+ ":" +:+ msg) with (err +:+ String ":" msg).
    rewrite split_app, (split_no_sep _ _ He), (split_no_sep _ _ Hm). reflexivity. }
  rewrite smart_failure_eq. unfold failure_parser.
  rewrite last_item_split. fold (lastline s). bind_ok.
  rewrite detail_fields, Hfields.
  change (firstn 2 [err; msg]) with [err; msg].
  change (skipn 2 [err; msg]) with (@nil string).
  cbn [Py.unpack2]. bind_ok. cbn iota.
  apply String.eqb_neq in Hne. rewrite Hne.
  change (scan_elements (Scan ∅ false None) (Py.split " " (Py.join ":" [])))
    with (Ok (Scan ∅ false None)).
  bind_ok. cbn [tval]. rewrite show_context_eq, lookup_empty. reflexivity.
Qed.

Lemma smart_failure_without_detail_witness :
  smart_failure (FailureText "yapf: command not found") empty_world
  = (Ok tt,
     add_event (ErrorMessage (Parsed "yapf" " command not found" ∅)) empty_world).
Proof.
  apply (smart_failure_without_detail "yapf: command not found" "yapf"
           " command not found" empty_world);
    (reflexivity || discriminate).
Defined.

(** X5: when [failure_parser] raises on the text of stderr, lines 189-197
    show one dialog, with that text as it is, and return. *)
Theorem parser_failure_shows_raw_text selection output s x w :
  failure_parser (FailureText s) = Raise x ->
  s <> "" ->
  replace_or_report selection output s w
  = (Ok tt, add_event (ErrorMessage (Plain s)) w).
Proof.
  intros Hraise Hne. unfold replace_or_report, try_except.
  apply String.eqb_neq in Hne. rewrite Hne.
  rewrite smart_failure_eq, Hraise. reflexivity.
Qed.

Lemma parser_failure_shows_raw_text_witness :
  replace_or_report (Region 0 0) [] "Segmentation fault" empty_world
  = (Ok tt, add_event (ErrorMessage (Plain "Segmentation fault")) empty_world).
Proof.
  apply (parser_failure_shows_raw_text (Region 0 0) [] "Segmentation fault"
           ValueError empty_world);
    (reflexivity || discriminate).
Defined.

(** X6: when the text of stderr parses but its [context] entry cannot be
    read as a place, the dialog of [smart_failure] is already up when it
    raises: lines 189-197 then show a second dialog with the text as it is,
    put no marker and return. *)
Theorem unreadable_context_two_dialogs selection output s err msg d ctx x w :
  failure_parser (FailureText s) = Ok (err, msg, d) ->
  d !! "context" = Some ctx ->
  context_point ctx = Raise x ->
  replace_or_report selection output s w
  = (Ok tt,
     add_events [ErrorMessage (Parsed err msg d); ErrorMessage (Plain s)] w).
Proof.
  intros Hparse Hctx Hpoint. unfold replace_or_report, try_except.
  destruct (String.eqb_spec s "") as [->|_]; [discriminate|].
  rewrite smart_failure_eq, Hparse, show_context_eq, Hctx, Hpoint.
  unfold error_message, log, modify, add_event. rewrite add_events_app.
  reflexivity.
Qed.

Lemma unreadable_context_two_dialogs_witness :
  replace_or_report (Region 0 0) [] "Error: bad: context=nowhere" empty_world
  = (Ok tt,
     add_events [ErrorMessage (Parsed "Error" " bad" {[ "context" := "nowhere" ]});
                 ErrorMessage (Plain "Error: bad: context=nowhere")]
                empty_world).
Proof.
  apply (unreadable_context_two_dialogs (Region 0 0) [] "Error: bad: context=nowhere"
           "Error" " bad" {[ "context" := "nowhere" ]} "nowhere" ValueError
           empty_world);
    vm_compute; reflexivity.
Defined.

(** X7: when the first word of the detail holds no [=], there is no key
    yet to join it to: [failure_parser] raises [KeyError]. *)
Theorem failure_parser_fragment_first s err msg rest f fs :
  Py.split ":" (lastline s) = err :: msg :: rest ->
  err <> "UnicodeEncodeError" ->
  Rules.words (Py.join ":" rest) = f :: fs ->
  Py.contains "=" f = false ->
  failure_parser (FailureText s) = Raise KeyError.
Proof.
  intros Hfields Hne Hwords Hf. unfold failure_parser.
  rewrite last_item_split. fold (lastline s). bind_ok.
  rewrite detail_fields, Hfields.
  change (firstn 2 (err :: msg :: rest)) with [err; msg].
  change (skipn 2 (err :: msg :: rest)) with rest.
  cbn [Py.unpack2]. bind_ok. cbn iota.
  apply String.eqb_neq in Hne. rewrite Hne.
  rewrite scan_elements_words. fold (Rules.words (Py.join ":" rest)).
  rewrite Hwords, steps_leading by (exact Hf || reflexivity). reflexivity.
Qed.

Lemma failure_parser_fragment_first_witness :
  failure_parser (FailureText "IOError: [Errno 2] No such file: 'x.py'")
  = Raise KeyError.
Proof.
  apply (failure_parser_fragment_first "IOError: [Errno 2] No such file: 'x.py'"
           "IOError" " [Errno 2] No such file" [" 'x.py'"] "'x.py'" []);
    (reflexivity || discriminate).
Defined.

(** ** The place a context names *)

Section ContextFacts.

Lemma fmt_int_chars z : all_chars sign_or_digit (Py.fmt_int z) = true.
Proof.
  assert (Hd : forall d, all_chars sign_or_digit (NilZero.string_of_uint d) = true).
  { intros d. eapply all_chars_impl, digits_of_uint_nz.
    intros a Ha. unfold sign_or_digit. rewrite Ha. reflexivity. }
  destruct z as [|p|p]; [reflexivity | apply Hd |].
  unfold Py.fmt_int. cbn [Z.to_int NilZero.string_of_int all_chars].
  rewrite Hd. reflexivity.
Qed.

Lemma sign_or_digit_plain a :
  sign_or_digit a = true ->
  negb (Py.is_space a) = true /\ Ascii.eqb a "," = false
  /\ Ascii.eqb a "(" = false.
Proof. destruct a as [[] [] [] [] [] [] [] []]; vm_compute; intuition congruence. Qed.

Lemma fmt_int_no_space z :
  all_chars (fun a => negb (Py.is_space a)) (Py.fmt_int z) = true.
Proof.
  eapply all_chars_impl, fmt_int_chars. intros a Ha.
  apply sign_or_digit_plain, Ha.
Qed.

Lemma fmt_int_no_comma z : Py.contains "," (Py.fmt_int z) = false.
Proof.
  apply (all_chars_not_contains sign_or_digit); [reflexivity | apply fmt_int_chars].
Qed.

Lemma fmt_int_first z :
  exists a r, Py.fmt_int z = String a r /\ Ascii.eqb a "(" = false.
Proof.
  pose proof (int_fmt_int z) as Hint. pose proof (fmt_int_chars z) as Hch.
  destruct (Py.fmt_int z) as [|a r]; [discriminate|].
  exists a, r. split; [reflexivity|].
  cbn in Hch. apply andb_true_iff in Hch as [Ha _].
  apply sign_or_digit_plain, Ha.
Qed.

Lemma drop_last_app s c : Py.drop_last (s +:+ String c "") = s.
Proof.
  induction s as [|a s IH]; [reflexivity|].
  change (String a s +:+ String c "") with (String a (s +:+ String c "")).
  cbn [Py.drop_last]. rewrite IH.
  destruct (s +:+ String c "") eqn:E; [|reflexivity].
  destruct s; discriminate.
Qed.

Lemma find_first c a rest :
  Py.contains c a = false ->
  Py.find c (a +:+ String c rest) = Z.of_nat (String.length a).
Proof.
  induction a as [|b a IH]; cbn [Py.contains].
  - intros _. change ("" +:+ String c rest) with (String c rest).
    cbn [Py.find]. rewrite Ascii.eqb_refl. reflexivity.
  - intros H. apply orb_false_iff in H as [Hb Ha].
    change (String b a +:+ String c rest) with (String b (a +:+ String c rest)).
    cbn [Py.find String.length]. rewrite Hb, (IH Ha).
    destruct (Z.ltb_spec (Z.of_nat (String.length a)) 0); lia.
Qed.

Lemma drop_past a c rest :
  Py.drop (S (String.length a)) (a +:+ String c rest) = rest.
Proof. induction a as [|b a IH]; [reflexivity | exact IH]. Qed.

(** A value that has no whitespace, after one space, is what [strip]
    leaves. *)
Lemma strip_after_space s :
  all_chars (fun a => negb (Py.is_space a)) s = true ->
  Py.strip (String " " s) = s.
Proof. intros H. rewrite <- (strip_no_space s H) at 2. reflexivity. Qed.

(** The offset that [context_of_offset] writes is the one [context_point]
    reads. *)
Lemma context_point_of_offset n :
  context_point (context_of_offset n) = Ok (CharIndex n).
Proof.
  unfold context_point, context_of_offset.
  change (Py.slice_1_m1 ("(" +:+ String "034" (String "034" (", " +:+ Py.fmt_int n +:+ ")"))))
    with (String "034" (String "034" (String ","
            (Py.drop_last (String " " (Py.fmt_int n +:+ ")")))))).
  change (String " " (Py.fmt_int n +:+ ")"))
    with (String " " (Py.fmt_int n) +:+ String ")" "").
  rewrite drop_last_app. cbn [Py.find Ascii.eqb].
  change (Py.drop _ (String "034" (String "034" (String "," (String " " (Py.fmt_int n))))))
    with (String " " (Py.fmt_int n)).
  rewrite strip_after_space by apply fmt_int_no_space.
  destruct (fmt_int_first n) as (a & r & E & Ha).
  rewrite E. cbn [Py.first_char]. bind_ok. rewrite Ha, <- E, int_fmt_int.
  reflexivity.
Qed.

End ContextFacts.

(** X8: given the exception object of a failed [encode], [smart_failure]
    always returns: it shows the dialog with the reason, the message and
    the context entry, and puts the marker at the character index [start]
    of the exception. *)
Theorem smart_failure_marks_start e w :
  smart_failure (FailureException e) w
  = (Ok tt,
     add_events
       (ErrorMessage
          (Parsed (uee_reason e) (uee_message e)
                  {[ "context" := context_of_offset (uee_start e) ]})
          :: mark_events (CharIndex (uee_start e)))
       w).
Proof.
  rewrite smart_failure_eq. cbn [failure_parser].
  rewrite show_context_eq, lookup_singleton_eq, context_point_of_offset.
  unfold add_event. rewrite add_events_app. reflexivity.
Qed.

(** X9: a context of the form [(a, (R,C))], the one a parse error of yapf
    gives, is read as row [R] and column [C], counted from one: the marker
    goes to the text point of row [R - 1] and column [C - 1]. *)
Theorem show_context_row_col d a R C w :
  d !! "context"
  = Some ("(" +:+ a +:+ ", (" +:+ Py.fmt_int R +:+ "," +:+ Py.fmt_int C +:+ "))") ->
  Py.contains "," a = false ->
  show_context d w
  = (Ok tt, add_events (mark_events (TextPoint (R - 1) (C - 1))) w).
Proof.
  intros Hd Ha. rewrite show_context_eq, Hd.
  set (inner := Py.fmt_int R +:+ String "," (Py.fmt_int C)).
  assert (E : "(" +:+ a +:+ ", (" +:+ Py.fmt_int R +:+ "," +:+ Py.fmt_int C +:+ "))"
              = String "("
                  ((a +:+ String "," (String " " (String "(" inner +:+ String ")" "")))
                     +:+ String ")" "")).
  { unfold inner. change ("(" +:+ ?x) with (String "(" x). f_equal.
    rewrite append_assoc. f_equal.
    change (", (" +:+ ?x) with (String "," (String " " (String "(" x))).
    change (String ?c1 (String ?c2 ?x) +:+ ?y) with (String c1 (String c2 (x +:+ y))).
    do 2 f_equal.
    change (String "(" ?x +:+ ?y) with (String "(" (x +:+ y)).
    change (String "(" ?x +:+ ?y) with (String "(" (x +:+ y)).
    f_equal. rewrite !append_assoc. reflexivity. }
  rewrite E. clear E. unfold context_point.
  change (Py.slice_1_m1 (String "(" ?x)) with (Py.drop_last x).
  rewrite drop_last_app, (find_first _ _ _ Ha).
  replace (Z.to_nat (Z.of_nat (String.length a) + 1)) with (S (String.length a))
    by lia.
  rewrite drop_past.
  assert (Hinner : all_chars (fun c => negb (Py.is_space c))
                             (String "(" inner +:+ String ")" "") = true).
  { unfold inner. change (String "(" ?x +:+ ?y) with (String "(" (x +:+ y)).
    cbn [all_chars]. rewrite !all_chars_app. cbn [all_chars].
    rewrite !fmt_int_no_space. reflexivity. }
  rewrite (strip_after_space _ Hinner).
  change (String "(" inner +:+ String ")" "")
    with (String "(" (inner +:+ String ")" "")).
  cbn [Py.first_char]. bind_ok.
  change (Ascii.eqb "(" "(") with true. cbn iota.
  change (Py.slice_1_m1 (String "(" ?x)) with (Py.drop_last x).
  rewrite drop_last_app. unfold inner.
  rewrite split_app, !split_no_sep by apply fmt_int_no_comma.
  cbn [app Py.unpack2]. bind_ok. cbn iota.
  rewrite !int_fmt_int. reflexivity.
Qed.

Lemma show_context_row_col_witness :
  show_context {[ "context" := "('', (46,44))" ]} empty_world
  = (Ok tt, add_events (mark_events (TextPoint 45 43)) empty_world).
Proof.
  apply (show_context_row_col {[ "context" := "('', (46,44))" ]} "''" 46 44
           empty_world);
    reflexivity.
Defined.

(** ** The ways a formatting ends early *)

Section EarlyEnds.

Variable other_encode : string -> list N -> result string.
Variable other_decode : string -> string -> result (list N).
Variable formatter :
  list string -> gmap string string -> option (gmap string string * string).

Abbreviation py_encode' := (py_encode other_encode).
Abbreviation py_decode' := (py_decode other_decode).
Abbreviation format_selection' :=
  (format_selection other_encode other_decode formatter).
Abbreviation run_region' := (run_region other_encode other_decode formatter).
Abbreviation run' := (run other_encode other_decode formatter).
Abbreviation formatted' := (formatted other_encode other_decode formatter).

(** X10: when the selection cannot be encoded, the dialog is shown and the
    marker put at the first character that does not encode; the formatting
    then raises [TypeError] on the missing file name.  No formatter is
    started, the text of the view is as it was, and both temporary files
    are left behind, the source file empty. *)
Theorem format_selection_encode_error selection encoding w e :
  py_encode' encoding (substr selection w) = Raise (UnicodeEncodeError e) ->
  format_selection' selection encoding w
  = (Raise TypeError,
     World (view_text w) (view_encoding w) (view_sel w) (plugin_settings w)
           (staged_files "" w) (S (S (tmp_next w)))
           (trace w
              ++ Encode encoding (substr selection w)
              :: ErrorMessage
                   (Parsed (uee_reason e) (uee_message e)
                           {[ "context" := context_of_offset (uee_start e) ]})
              :: mark_events (CharIndex (uee_start e)))).
Proof.
  intros Henc.
  unfold format_selection, save_selection_to_tempfile, mkstemp, view_substr.
  mrun. wsimpl. fold (substr selection w). rewrite Henc.
  rewrite run_assoc.
  erewrite run_bind_ok.
  2:{ rewrite smart_failure_eq. cbn [failure_parser].
      rewrite show_context_eq, lookup_singleton_eq, context_point_of_offset.
      reflexivity. }
  unfold settings_get. mrun. wsimpl.
  rewrite (run_bind_ok _ _ _ _ _ (save_style_to_tempfile_eq _ _)).
  mrun. wsimpl. unfold popen_communicate.
  change (mapM id [Some ?a; Some ?b; Some ?c; Some ?d; None])
    with (@None (list string)).
  cbn iota. mrun. rewrite <- !app_assoc. reflexivity.
Qed.

(** X11: an exception of [encode] that is not a [UnicodeEncodeError], such
    as the [LookupError] of an encoding name Python does not know, leaves
    the formatting at once: no dialog, no formatter, and the empty
    temporary source file is left behind. *)
Theorem format_selection_encode_raises selection encoding w x :
  py_encode' encoding (substr selection w) = Raise x ->
  (forall e, x <> UnicodeEncodeError e) ->
  format_selection' selection encoding w
  = (Raise x,
     World (view_text w) (view_encoding w) (view_sel w) (plugin_settings w)
           (<[py_name w := ""]> (files w)) (S (tmp_next w))
           (trace w ++ [Encode encoding (substr selection w)])).
Proof.
  intros Henc Hx.
  unfold format_selection, save_selection_to_tempfile, mkstemp, view_substr.
  mrun. wsimpl. fold (substr selection w). rewrite Henc.
  destruct x; try reflexivity. exfalso. eapply Hx. reflexivity.
Qed.

(** X12: when the formatter cannot be started, [OSError] leaves the
    formatting: no dialog is shown, the text of the view is as it was, and
    both temporary files are left behind. *)
Theorem format_selection_no_formatter selection encoding w encoded :
  py_encode' encoding (substr selection w) = Ok encoded ->
  formatter (command w) (staged_files encoded w) = None ->
  format_selection' selection encoding w
  = (Raise OSError,
     World (view_text w) (view_encoding w) (view_sel w) (plugin_settings w)
           (staged_files encoded w) (S (S (tmp_next w)))
           (trace w ++ [Encode encoding (substr selection w); Popen (command w)])).
Proof.
  intros Henc Hfmt. unfold format_selection.
  rewrite (run_bind_ok _ _ _ _ _ (save_selection_ok _ _ _ _ _ Henc)).
  unfold settings_get. mrun. wsimpl.
  rewrite (run_bind_ok _ _ _ _ _ (save_style_to_tempfile_eq _ _)).
  mrun. wsimpl. unfold popen_communicate.
  change (mapM id [Some ?a; Some ?b; Some ?c; Some ?d; Some ?e])
    with (Some [a; b; c; d; e]).
  cbn iota. mrun. wsimpl.
  fold (style_name w) (yapf_setting w) (style_setting w). fold (command w).
  replace (<[style_name w := style_text (style_setting w)]>
             (<[py_name w := encoded]> (files w)))
    with (staged_files encoded w) by reflexivity.
  rewrite Hfmt. mrun. rewrite <- app_assoc. reflexivity.
Qed.

(** X13: when the file of the formatter cannot be read back, because it is
    gone or does not decode, the exception leaves the formatting: the view
    is not changed, nothing is deleted, and what the formatter wrote to
    stderr is not shown. *)
Theorem format_selection_unreadable selection encoding w encoded fs output_err x :
  py_encode' encoding (substr selection w) = Ok encoded ->
  formatter (command w) (staged_files encoded w) = Some (fs, output_err) ->
  match fs !! py_name w with
  | Some b => py_decode' encoding b
  | None => Raise IOError
  end = Raise x ->
  format_selection' selection encoding w
  = (Raise x,
     World (view_text w) (view_encoding w) (view_sel w) (plugin_settings w)
           fs (S (S (tmp_next w)))
           (trace w ++ [Encode encoding (substr selection w); Popen (command w);
                        CodecsOpen (py_name w) encoding])).
Proof.
  intros Henc Hfmt Hread.
  rewrite (format_selection_started _ _ _ _ _ _ _ _ _ Henc Hfmt).
  unfold codecs_open_read. mrun. wsimpl.
  destruct (fs !! py_name w) as [b|].
  - rewrite Hread. mrun. rewrite <- app_assoc. reflexivity.
  - injection Hread as <-. mrun. rewrite <- app_assoc. reflexivity.
Qed.

End EarlyEnds.

Lemma format_selection_encode_error_witness :
  fst (format_selection no_encode no_decode (idle_formatter "")
                        (Region 0 4) "ascii" non_ascii_world)
  = Raise TypeError.
Proof.
  rewrite (format_selection_encode_error no_encode no_decode (idle_formatter "")
             (Region 0 4) "ascii" non_ascii_world
             (UEE "ascii" [99; 97; 102; 233]%N 3 4 "ordinal not in range(128)" ""));
    reflexivity.
Defined.

Lemma format_selection_encode_raises_witness :
  fst (format_selection no_encode no_decode (idle_formatter "")
                        (Region 0 5) "Western (Windows 1252)" ascii_world)
  = Raise LookupError.
Proof.
  rewrite (format_selection_encode_raises no_encode no_decode (idle_formatter "")
             (Region 0 5) "Western (Windows 1252)" ascii_world LookupError);
    (reflexivity || discriminate).
Defined.

Lemma format_selection_no_formatter_witness :
  fst (format_selection no_encode no_decode missing_formatter
                        (Region 0 5) "ascii" ascii_world)
  = Raise OSError.
Proof.
  rewrite (format_selection_no_formatter no_encode no_decode missing_formatter
             (Region 0 5) "ascii" ascii_world "x = 1");
    reflexivity.
Defined.

Lemma format_selection_unreadable_witness :
  fst (format_selection no_encode no_decode garbling_formatter
                        (Region 0 5) "ascii" ascii_world)
  = Raise UnicodeDecodeError.
Proof.
  rewrite (format_selection_unreadable no_encode no_decode garbling_formatter
             (Region 0 5) "ascii" ascii_world "x = 1"
             (<[py_name ascii_world := String "233" ""]>
                (staged_files "x = 1" ascii_world))
             "yapf: internal error" UnicodeDecodeError);
    reflexivity.
Defined.

(** ** What a formatting that goes through leaves behind *)

Section Outcomes.

Variable other_encode : string -> list N -> result string.
Variable other_decode : string -> string -> result (list N).
Variable formatter :
  list string -> gmap string string -> option (gmap string string * string).

Abbreviation py_encode' := (py_encode other_encode).
Abbreviation py_decode' := (py_decode other_decode).
Abbreviation save_selection' := (save_selection_to_tempfile other_encode).
Abbreviation format_selection' :=
  (format_selection other_encode other_decode formatter).
Abbreviation run_region' := (run_region other_encode other_decode formatter).
Abbreviation formatted' := (formatted other_encode other_decode formatter).

(** What ascii encodes, ascii decodes. *)
Lemma ascii_round_trip u b : ascii_encode u = Ok b -> ascii_decode b = Ok u.
Proof.
  unfold ascii_encode, ascii_decode.
  destruct (first_non_ascii u) eqn:E; [discriminate|].
  intros H. injection H as <-.
  rewrite list_ascii_of_string_of_list_ascii, map_map.
  assert (Hid : map (fun c => N_of_ascii (ascii_of_N c)) u = u).
  { clear -E. induction u as [|c u IH]; [reflexivity|]. cbn in E.
    destruct (is_ascii c) eqn:Hc; [|discriminate].
    destruct (first_non_ascii u); [discriminate|].
    cbn [map]. rewrite IH by reflexivity. f_equal.
    apply N_ascii_embedding. unfold is_ascii in Hc.
    apply N.ltb_lt in Hc. lia. }
  rewrite Hid, E. reflexivity.
Qed.

(** Putting the text of a region back in its place gives the text. *)
Lemma splice_same selection (t : list N) :
  firstn (region_begin selection) t
    ++ firstn (region_end selection - region_begin selection)
              (skipn (region_begin selection) t)
    ++ skipn (region_end selection) t
  = t.
Proof.
  assert (Hle : region_begin selection <= region_end selection)
    by (unfold region_begin, region_end; lia).
  replace (skipn (region_end selection) t)
    with (skipn (region_end selection - region_begin selection)
                (skipn (region_begin selection) t)).
  - rewrite firstn_skipn. apply firstn_skipn.
  - rewrite skipn_skipn. f_equal. lia.
Qed.

(** X14: with the ascii codec, a formatter that leaves the source file as
    it is and writes nothing to stderr leaves the text of the view as it
    was. *)
Theorem unchanged_file_keeps_text selection w encoded fs :
  ascii_encode (substr selection w) = Ok encoded ->
  formatter (command w) (staged_files encoded w) = Some (fs, "") ->
  fs !! py_name w = Some encoded ->
  view_text (snd (format_selection' selection "ascii" w)) = view_text w.
Proof.
  intros Henc Hfmt Hfile.
  destruct (format_selection_replaced other_encode other_decode formatter
              selection "ascii" w encoded fs encoded (substr selection w))
    as [_ Hv].
  { repeat split; try assumption. apply ascii_round_trip, Henc. }
  rewrite Hv. apply splice_same.
Qed.

(** X15: when nothing is selected and the whole buffer is formatted, with
    nothing on stderr, the text of the view afterwards is the output of the
    formatter, and nothing else. *)
Theorem whole_buffer_replaced encoding w encoded fs b output :
  let selection := Region 0 (length (view_text w)) in
  py_encode' encoding (substr selection w) = Ok encoded ->
  formatter (command w) (staged_files encoded w) = Some (fs, "") ->
  fs !! py_name w = Some b ->
  py_decode' encoding b = Ok output ->
  view_text (snd (format_selection' selection encoding w)) = output.
Proof.
  intros selection Henc Hfmt Hb Hdec.
  destruct (format_selection_replaced other_encode other_decode formatter
              selection encoding w encoded fs b output) as [_ Hv].
  { repeat split; assumption. }
  rewrite Hv. unfold selection, region_begin, region_end. cbn [reg_a reg_b].
  rewrite Nat.min_0_l, Nat.max_0_l, skipn_all, app_nil_r. reflexivity.
Qed.

(** X16: once the formatter has run and its file has been read back, with
    or without text on stderr, the formatting returns and both temporary
    files are gone; the other files are as the formatter left them. *)
Theorem temp_files_gone selection encoding w encoded fs output_err b output :
  py_encode' encoding (substr selection w) = Ok encoded ->
  formatter (command w) (staged_files encoded w) = Some (fs, output_err) ->
  fs !! py_name w = Some b ->
  py_decode' encoding b = Ok output ->
  is_Some (fs !! style_name w) ->
  fst (format_selection' selection encoding w) = Ok tt
  /\ files (snd (format_selection' selection encoding w)) !! py_name w = None
  /\ files (snd (format_selection' selection encoding w)) !! style_name w = None
  /\ forall f, f <> py_name w -> f <> style_name w ->
               files (snd (format_selection' selection encoding w)) !! f = fs !! f.
Proof.
  intros Henc Hfmt Hb Hdec Hstyle.
  destruct (temp_files_deleted_after_formatter other_encode other_decode formatter
              selection encoding w encoded fs output_err b output) as [Hok Hfiles];
    [repeat split; assumption | exact Hstyle |].
  rewrite Hfiles. split; [exact Hok|]. split; [|split].
  - rewrite lookup_delete_ne by (apply not_eq_sym, tmp_names_differ).
    apply lookup_delete_eq.
  - apply lookup_delete_eq.
  - intros f Hpy Hst. rewrite !lookup_delete_ne by congruence. reflexivity.
Qed.

(** X17: the temporary files come and go: when the two names were free
    and the formatter touches nothing but the source file, the file system
    after the formatting is the one before it. *)
Theorem file_system_restored selection encoding w encoded fs output_err b output :
  py_encode' encoding (substr selection w) = Ok encoded ->
  formatter (command w) (staged_files encoded w) = Some (fs, output_err) ->
  fs !! py_name w = Some b ->
  py_decode' encoding b = Ok output ->
  files w !! py_name w = None ->
  files w !! style_name w = None ->
  (forall f, f <> py_name w -> fs !! f = staged_files encoded w !! f) ->
  files (snd (format_selection' selection encoding w)) = files w.
Proof.
  intros Henc Hfmt Hb Hdec Hpy Hst Hsame.
  assert (Hne : style_name w <> py_name w)
    by (apply not_eq_sym, tmp_names_differ).
  destruct (temp_files_deleted_after_formatter other_encode other_decode formatter
              selection encoding w encoded fs output_err b output) as [_ Hfiles].
  { repeat split; assumption. }
  { rewrite (Hsame _ Hne). unfold staged_files. rewrite lookup_insert_eq. eauto. }
  rewrite Hfiles. apply map_eq. intros f.
  destruct (decide (f = style_name w)) as [->|Hfs].
  - rewrite lookup_delete_eq, Hst. reflexivity.
  - rewrite lookup_delete_ne by congruence.
    destruct (decide (f = py_name w)) as [->|Hfp].
    + rewrite lookup_delete_eq, Hpy. reflexivity.
    + rewrite lookup_delete_ne by congruence. rewrite (Hsame _ Hfp).
      unfold staged_files. rewrite !lookup_insert_ne by congruence. reflexivity.
Qed.

(** The first call a formatting makes is the encoding of the text of
    its selection. *)
Lemma save_selection_first_event selection encoding w :
  exists evs,
    trace (snd (save_selection' selection encoding w))
    = trace w ++ Encode encoding (substr selection w) :: evs.
Proof.
  unfold save_selection_to_tempfile, mkstemp, view_substr.
  mrun. wsimpl. fold (substr selection w).
  destruct (py_encode' encoding (substr selection w)) as [encoded|x].
  - exists []. reflexivity.
  - destruct x; try (exists []; reflexivity).
    destruct (smart_failure_logs (FailureException e)) as (r & evs & _ & Hsf).
    exists evs. destruct r as [[]|x];
      [ rewrite (run_bind_ok _ _ _ _ _ (Hsf _))
      | rewrite (run_bind_raise _ _ _ _ _ (Hsf _)) ];
      unfold mret, M_ret; cbn [snd add_events trace];
      rewrite <- app_assoc; reflexivity.
Qed.

Lemma bind_first_event {A B} (m : M A) (k : A -> M B) w e :
  (exists evs, trace (snd (m w)) = trace w ++ e :: evs) ->
  (forall a, emits (fun _ => True) (k a)) ->
  exists evs, trace (snd ((m ≫= k) w)) = trace w ++ e :: evs.
Proof.
  intros [evs Hm] Hk. destruct (m w) as [[a|x] w1] eqn:E; cbn [snd] in Hm.
  - rewrite (run_bind_ok _ _ _ _ _ E).
    destruct (Hk a w1) as (evs2 & Ht & _). exists (evs ++ evs2).
    rewrite Ht, Hm, <- app_assoc. reflexivity.
  - rewrite (run_bind_raise _ _ _ _ _ E). exists evs. exact Hm.
Qed.

Lemma format_selection_first_event selection encoding w :
  exists evs,
    trace (snd (format_selection' selection encoding w))
    = trace w ++ Encode encoding (substr selection w) :: evs.
Proof.
  unfold format_selection.
  apply bind_first_event; [apply save_selection_first_event|].
  intros py_filename.
  apply emits_bind; [apply emits_settings_get|]. intros style.
  apply emits_bind; [apply emits_save_style|]. intros style_filename.
  apply emits_bind; [apply emits_settings_get|]. intros yapf.
  apply emits_bind; [apply emits_popen; intros; exact I|]. intros output_err.
  apply emits_bind; [apply emits_codecs_open_read; intros; exact I|].
  intros output.
  apply emits_bind; [apply emits_replace_or_report; intros; exact I|].
  intros _.
  apply emits_bind; [|intros _]; apply emits_os_unlink.
Qed.

(** X18: for an empty region, unless the setting is false, the text that
    is encoded for the formatter is the whole text of the view. *)
Theorem whole_buffer_encoded encoding r w :
  region_empty r = true ->
  use_entire_file_if_no_selection (plugin_settings w) <> Some false ->
  exists evs,
    trace (snd (run_region' encoding r w))
    = trace w ++ Encode encoding (view_text w) :: evs.
Proof.
  intros Hr Hset.
  unfold run_region, choose_selection, settings_get, view_size.
  rewrite Hr. mrun.
  assert (Huse : default true (use_entire_file_if_no_selection (plugin_settings w))
                 = true).
  { destruct (use_entire_file_if_no_selection (plugin_settings w)) as [[|]|];
      (reflexivity || contradiction). }
  rewrite Huse. mrun.
  destruct (format_selection_first_event (Region 0 (length (view_text w)))
              encoding w) as [evs Ht].
  exists evs. rewrite Ht. do 3 f_equal.
  unfold substr, region_begin, region_end. cbn [reg_a reg_b].
  rewrite Nat.min_0_l, Nat.max_0_l, Nat.sub_0_r.
  change (skipn 0 (view_text w)) with (view_text w). apply firstn_all.
Qed.

End Outcomes.

Lemma unchanged_file_keeps_text_witness :
  view_text (snd (format_selection no_encode no_decode (idle_formatter "")
                                   (Region 1 4) "ascii" ascii_world))
  = view_text ascii_world.
Proof.
  apply (unchanged_file_keeps_text no_encode no_decode (idle_formatter "")
           (Region 1 4) ascii_world " = "
           (staged_files " = " ascii_world));
    reflexivity.
Defined.

Lemma whole_buffer_replaced_witness :
  view_text (snd (format_selection no_encode no_decode (idle_formatter "")
                                   (Region 0 5) "ascii" ascii_world))
  = [120; 32; 61; 32; 49]%N.
Proof.
  apply (whole_buffer_replaced no_encode no_decode (idle_formatter "")
           "ascii" ascii_world "x = 1" (staged_files "x = 1" ascii_world)
           "x = 1" [120; 32; 61; 32; 49]%N);
    reflexivity.
Defined.

Lemma temp_files_gone_witness :
  fst (format_selection no_encode no_decode (idle_formatter "Segmentation fault")
                        (Region 0 5) "ascii" ascii_world) = Ok tt
  /\ files (snd (format_selection no_encode no_decode
                                  (idle_formatter "Segmentation fault")
                                  (Region 0 5) "ascii" ascii_world))
       !! py_name ascii_world = None.
Proof.
  destruct (temp_files_gone no_encode no_decode (idle_formatter "Segmentation fault")
              (Region 0 5) "ascii" ascii_world "x = 1"
              (staged_files "x = 1" ascii_world) "Segmentation fault" "x = 1"
              [120; 32; 61; 32; 49]%N)
    as (Hok & Hpy & _); try reflexivity.
  - eexists. reflexivity.
  - split; assumption.
Defined.

Lemma file_system_restored_witness :
  files (snd (format_selection no_encode no_decode (idle_formatter "")
                               (Region 0 5) "ascii" ascii_world))
  = files ascii_world.
Proof.
  apply (file_system_restored no_encode no_decode (idle_formatter "")
           (Region 0 5) "ascii" ascii_world "x = 1"
           (staged_files "x = 1" ascii_world) "" "x = 1"
           [120; 32; 61; 32; 49]%N);
    reflexivity.
Defined.

Lemma whole_buffer_encoded_witness :
  exists evs,
    trace (snd (run_region no_encode no_decode (idle_formatter "") "ascii"
                           (Region 3 3) ascii_world))
    = trace ascii_world ++ Encode "ascii" (view_text ascii_world) :: evs.
Proof.
  apply (whole_buffer_encoded no_encode no_decode (idle_formatter "") "ascii"
           (Region 3 3) ascii_world).
  - reflexivity.
  - discriminate.
Defined.

(** ** The names in the style section and in the parsed dictionary *)

Section NameFacts.

Implicit Types (l : list (string * style_value)) (opts : gmap string style_value).

Lemma foldl_set_sound l : forall opts x v,
  foldl (fun opts kv => <[ConfigParser.optionxform (fst kv) := snd kv]> opts) opts l
    !! x = Some v ->
  opts !! x = Some v \/ exists k, In (k, v) l /\ Py.lower k = x.
Proof.
  induction l as [|[k1 v1] l IH]; intros opts x v H; [left; exact H|].
  cbn [foldl fst snd] in H. apply IH in H as [H|(k & Hin & Hk)].
  - apply lookup_insert_Some in H as [[<- <-]|[_ H]].
    + right. exists k1. split; [left; reflexivity | reflexivity].
    + left. exact H.
  - right. exists k. split; [right; exact Hin | exact Hk].
Qed.

Lemma foldl_set_keeps l : forall opts x,
  is_Some (opts !! x) ->
  is_Some (foldl (fun opts kv => <[ConfigParser.optionxform (fst kv) := snd kv]> opts)
                 opts l !! x).
Proof.
  induction l as [|kv l IH]; intros opts x H; [exact H|].
  cbn [foldl]. apply IH. rewrite lookup_insert_is_Some.
  destruct (decide (ConfigParser.optionxform (fst kv) = x)); auto.
Qed.

Lemma foldl_set_complete l : forall opts k v,
  In (k, v) l ->
  is_Some (foldl (fun opts kv => <[ConfigParser.optionxform (fst kv) := snd kv]> opts)
                 opts l !! Py.lower k).
Proof.
  induction l as [|kv l IH]; intros opts k v Hin; [destruct Hin|].
  cbn [foldl]. destruct Hin as [->|Hin]; [|eapply IH, Hin].
  apply foldl_set_keeps. cbn [fst snd]. eexists. apply lookup_insert_eq.
Qed.

Lemma for_each_app {A} (l1 l2 : list A) (body : A -> M unit) w :
  for_each (l1 ++ l2) body w = (for_each l1 body ;; for_each l2 body) w.
Proof.
  revert w. induction l1 as [|x l1 IH]; intros w; [reflexivity|].
  cbn [app for_each]. rewrite run_assoc.
  destruct (body x w) as [[[]|e] w1] eqn:E.
  - rewrite !(run_bind_ok _ _ _ _ _ E). apply IH.
  - rewrite !(run_bind_raise _ _ _ _ _ E). reflexivity.
Qed.

End NameFacts.

(** X19: the parser object of the style file has one section, [style].
    Every option in it is the lower-case name of a key of the dictionary
    with that key's value, and every key of the dictionary has an option
    under its lower-case name: no value is made up and no name is lost. *)
Theorem style_config_names (in_dict : gmap string style_value) :
  exists opts,
    style_config in_dict = Ok [("style", opts)]
    /\ (forall x v, opts !! x = Some v ->
                    exists k, in_dict !! k = Some v /\ Py.lower k = x)
    /\ (forall k, is_Some (in_dict !! k) -> is_Some (opts !! Py.lower k)).
Proof.
  exists (style_section in_dict). split; [apply style_config_eq|]. split.
  - intros x v H. unfold style_section in H.
    apply foldl_set_sound in H as [H|(k & Hin & Hk)].
    + rewrite lookup_empty in H. discriminate.
    + exists k. split; [|exact Hk].
      apply elem_of_map_to_list, list_elem_of_In, Hin.
  - intros k [v Hk]. unfold style_section. apply (foldl_set_complete _ _ k v).
    apply list_elem_of_In, elem_of_map_to_list, Hk.
Qed.

Lemma style_config_names_witness :
  exists opts,
    style_config example_style = Ok [("style", opts)]
    /\ is_Some (opts !! "column_limit").
Proof.
  destruct (style_config_names example_style) as (opts & Hcfg & _ & Hall).
  exists opts. split; [exact Hcfg|].
  apply (Hall "COLUMN_LIMIT"). eexists. reflexivity.
Defined.

Section KeyFacts.

Import Rules.

Lemma foldl_insert_keys (ps : list (string * string)) :
  forall (d0 : gmap string string) k,
  is_Some (foldl (fun d kv => <[fst kv := snd kv]> d) d0 ps !! k)
  <-> is_Some (d0 !! k) \/ exists v, In (k, v) ps.
Proof.
  induction ps as [|[k1 v1] ps IH]; intros d0 k; cbn [foldl fst snd].
  - split; [auto | intros [H|[v []]]; exact H].
  - rewrite IH, lookup_insert_is_Some. split.
    + intros [[<-|[_ H]]|[v Hin]].
      * right. exists v1. left. reflexivity.
      * left. exact H.
      * right. exists v. right. exact Hin.
    + intros [H|[v [Heq|Hin]]].
      * left. destruct (decide (k1 = k)); auto.
      * injection Heq as -> _. left. left. reflexivity.
      * right. exists v. exact Hin.
Qed.

Lemma pair_of_key ch k v :
  pair_of ch = Some (k, v) ->
  exists value, Py.split "=" (fst ch) = [k; value].
Proof.
  unfold pair_of. destruct (Py.split "=" (fst ch)) as [|k' [|value [|? ?]]];
    try discriminate.
  destruct (String.eqb value ""); [discriminate|].
  intros H. injection H as -> _. exists value. reflexivity.
Qed.

Lemma split_two_contains c e a b :
  Py.split c e = [a; b] -> Py.contains c e = true.
Proof.
  intros H. destruct (Py.contains c e) eqn:E; [reflexivity|].
  rewrite (split_no_sep _ _ E) in H. discriminate.
Qed.

Lemma head_in_flatten chunks e fs : In (e, fs) chunks -> In e (flatten chunks).
Proof.
  induction chunks as [|ch chunks IH]; [intros []|].
  intros [->|H]; [left; reflexivity|].
  unfold flatten. cbn [flat_map]. right. apply in_or_app. right. apply IH, H.
Qed.

Lemma in_flatten_head chunks e :
  Forall chunk_ok chunks -> In e (flatten chunks) -> is_pair e = true ->
  exists fs, In (e, fs) chunks.
Proof.
  induction chunks as [|[e0 fs0] chunks IH]; [intros _ []|].
  intros Hok Hin He. apply Forall_cons in Hok as [[_ Hfs] Hok].
  unfold flatten in Hin. cbn [flat_map fst snd] in Hin.
  destruct Hin as [->|Hin].
  - exists fs0. left. reflexivity.
  - apply in_app_or in Hin as [Hin|Hin].
    + cbn [snd] in Hfs. rewrite Forall_forall in Hfs.
      apply list_elem_of_In, Hfs in Hin. congruence.
    + destruct (IH Hok Hin He) as [fs Hfs']. exists fs. right. exact Hfs'.
Qed.

(** The dictionary of a text that parses is the one of the rules for its
    detail. *)
Lemma failure_parser_pairs s err msg d :
  failure_parser (FailureText s) = Ok (err, msg, d) ->
  err <> "UnicodeEncodeError" ->
  pairs_dict (Py.join ":" (skipn 2 (Py.split ":" (lastline s)))) = Some d.
Proof.
  unfold failure_parser. rewrite last_item_split. fold (lastline s). bind_ok.
  rewrite detail_fields.
  destruct (Py.split ":" (lastline s)) as [|err0 [|msg0 rest]]; try discriminate.
  change (firstn 2 (err0 :: msg0 :: rest)) with [err0; msg0].
  change (skipn 2 (err0 :: msg0 :: rest)) with rest.
  cbn [Py.unpack2]. bind_ok. cbn iota. intros H Hne.
  rewrite <- scan_elements_rules.
  unfold mbind, result_bind, rbind in *.
  destruct (String.eqb_spec err0 "UnicodeEncodeError") as [->|_].
  - destruct (Py.last_item _); [|discriminate H].
    destruct (Py.int _); [|discriminate H].
    injection H as <- _ _. contradiction.
  - destruct (scan_elements _ _); [|discriminate H].
    injection H as _ _ <-. reflexivity.
Qed.

End KeyFacts.

(** X20: in the dictionary that [failure_parser] returns for a text, when
    the error is not [UnicodeEncodeError], the keys are the names before the
    [=] of the words of the detail, and no others. *)
Theorem failure_parser_keys s err msg d k :
  failure_parser (FailureText s) = Ok (err, msg, d) ->
  err <> "UnicodeEncodeError" ->
  is_Some (d !! k)
  <-> exists e value,
      In e (Rules.words (Py.join ":" (skipn 2 (Py.split ":" (lastline s)))))
      /\ Py.split "=" e = [k; value].
Proof.
  intros Hparse Hne. pose proof (failure_parser_pairs _ _ _ _ Hparse Hne) as Hd.
  unfold Rules.pairs_dict in Hd.
  set (ws := Rules.words _) in *.
  destruct (group_spec ws) as (Hflat & _ & Hok).
  destruct (Rules.group ws) as [lead chunks]. cbn [fst snd] in *.
  destruct lead as [|? ?]; [|discriminate]. cbn [app] in Hflat.
  destruct (mapM Rules.pair_of chunks) as [ps|] eqn:Hps; [|discriminate].
  cbn in Hd. injection Hd as <-. apply mapM_Some_1 in Hps.
  rewrite foldl_insert_keys, lookup_empty. split.
  - intros [[? H]|[v Hin]]; [discriminate|].
    apply list_elem_of_In, list_elem_of_lookup in Hin as [i Hi].
    destruct (Forall2_lookup_r _ _ _ _ _ Hps Hi) as (ch & Hch & Hpair).
    apply pair_of_key in Hpair as [value Hsplit].
    exists (fst ch), value. split; [|exact Hsplit].
    rewrite Hflat. apply (head_in_flatten _ _ (snd ch)).
    destruct ch. apply list_elem_of_In, list_elem_of_lookup. eauto.
  - intros (e & value & Hin & Hsplit). right.
    rewrite Hflat in Hin.
    destruct (in_flatten_head _ _ Hok Hin) as [fs Hfs].
    { apply (split_two_contains _ _ _ _ Hsplit). }
    apply list_elem_of_In, list_elem_of_lookup in Hfs as [i Hi].
    destruct (Forall2_lookup_l _ _ _ _ _ Hps Hi) as ([k' v] & Hp & Hpair).
    destruct (pair_of_key _ _ _ Hpair) as [value' Hsplit'].
    cbn [fst] in Hsplit'. rewrite Hsplit in Hsplit'. injection Hsplit' as <- _.
    exists v. apply list_elem_of_In, list_elem_of_lookup. eauto.
Qed.

Lemma failure_parser_keys_witness :
  is_Some (({[ "type" := "1"; "value" := "u'foo'"; "context" := "('', (46,44))" ]}
              : gmap string string) !! "value")
  <-> exists e value,
      In e (Rules.words (Py.join ":" (skipn 2 (Py.split ":" (lastline parse_error_text)))))
      /\ Py.split "=" e = ["value"; value].
Proof.
  apply (failure_parser_keys parse_error_text "lib2to3.pgen2.parse.ParseError"
           " bad input").
  - vm_compute. reflexivity.
  - discriminate.
Defined.

Section LoopFacts.

Variable other_encode : string -> list N -> result string.
Variable other_decode : string -> string -> result (list N).
Variable formatter :
  list string -> gmap string string -> option (gmap string string * string).

Abbreviation run_region' := (run_region other_encode other_decode formatter).
Abbreviation run' := (run other_encode other_decode formatter).

(** X21: [run] formats the regions in their order and ends at the first
    one whose formatting raises: the exception leaves [run] and the regions
    after it are not touched. *)
Theorem run_ends_at_first_exception w encoding before r after w1 x w2 :
  encoding = (if String.eqb (view_encoding w) "Undefined"
              then "ascii" else view_encoding w) ->
  view_sel w = before ++ r :: after ->
  for_each before (run_region' encoding) w = (Ok tt, w1) ->
  run_region' encoding r w1 = (Raise x, w2) ->
  run' w = (Raise x, w2).
Proof.
  intros -> Hsel Hbefore Hr. unfold run. rewrite run_get, Hsel.
  cbn zeta. rewrite for_each_app, (run_bind_ok _ _ _ _ _ Hbefore).
  cbn [for_each]. apply (run_bind_raise _ _ _ _ _ Hr).
Qed.

End LoopFacts.

Lemma run_ends_at_first_exception_witness :
  fst (run no_encode no_decode (idle_formatter "") two_region_world)
  = Raise TypeError.
Proof.
  rewrite (run_ends_at_first_exception no_encode no_decode (idle_formatter "")
             two_region_world "ascii" [] (Region 0 4) [Region 0 3]
             two_region_world TypeError
             (snd (run_region no_encode no_decode (idle_formatter "") "ascii"
                              (Region 0 4) two_region_world)));
    reflexivity.
Defined.

(** ** Numbers the parser cannot read, and pairs it cannot split *)

Section BadInputFacts.

Lemma uint_non_digit s c :
  Py.contains c s = true -> is_digit c = false ->
  NilEmpty.uint_of_string s = None.
Proof.
  intros Hc Hd. induction s as [|a s IH]; [discriminate|].
  cbn [Py.contains] in Hc. cbn [NilEmpty.uint_of_string].
  destruct (Py.contains c s).
  - rewrite IH by reflexivity. reflexivity.
  - rewrite orb_false_r in Hc. apply Ascii.eqb_eq in Hc as ->.
    destruct (NilEmpty.uint_of_string s); [|reflexivity].
    clear -Hd. destruct c as [[] [] [] [] [] [] [] []];
      try reflexivity; discriminate Hd.
Qed.

Lemma lstrip_contains p c s :
  Py.contains c s = true -> p c = false ->
  Py.contains c (Py.lstrip_by p s) = true.
Proof.
  intros Hc Hp. induction s as [|a s IH]; [discriminate|].
  cbn [Py.lstrip_by]. destruct (p a) eqn:Ea; [|exact Hc].
  apply IH. cbn [Py.contains] in Hc.
  destruct (Ascii.eqb_spec a c) as [->|_]; [congruence | exact Hc].
Qed.

Lemma rstrip_contains p c s :
  Py.contains c s = true -> p c = false ->
  Py.contains c (Py.rstrip_by p s) = true.
Proof.
  intros Hc Hp. induction s as [|a s IH]; [discriminate|].
  cbn [Py.rstrip_by]. cbn [Py.contains] in Hc.
  destruct (Ascii.eqb_spec a c) as [->|Hac].
  - destruct (Py.rstrip_by p s); [rewrite Hp|]; cbn; rewrite Ascii.eqb_refl;
      reflexivity.
  - cbn [orb] in Hc. specialize (IH Hc).
    destruct (Py.rstrip_by p s) as [|b r]; [discriminate|].
    cbn [Py.contains] in *. rewrite IH. apply orb_true_r.
Qed.

(** [int] raises on a string with a character that is neither a digit,
    nor whitespace, nor a sign. *)
Lemma int_raises s c :
  Py.contains c s = true -> is_digit c = false -> Py.is_space c = false ->
  c <> "-"%char -> c <> "+"%char ->
  Py.int s = Raise ValueError.
Proof.
  intros Hc Hd Hs Hm Hp. unfold Py.int.
  assert (Ht : Py.contains c (Py.strip s) = true)
    by (apply rstrip_contains, Hs; apply lstrip_contains; assumption).
  destruct (Py.strip s) as [|a r]; [discriminate|].
  assert (Hbody : forall body,
             Py.contains c body = true -> NilZero.uint_of_string body = None).
  { intros body Hb. unfold NilZero.uint_of_string.
    destruct body; [reflexivity|]. apply (uint_non_digit _ c); assumption. }
  assert (Hr : a <> c -> Py.contains c r = true).
  { intros Hac. cbn [Py.contains] in Ht.
    destruct (Ascii.eqb_spec a c); [contradiction | exact Ht]. }
  destruct (Ascii.eqb_spec a "-") as [->|_].
  - rewrite Hbody by (apply Hr; congruence). reflexivity.
  - destruct (Ascii.eqb_spec a "+") as [->|_].
    + rewrite Hbody by (apply Hr; congruence). reflexivity.
    + rewrite (Hbody _ Ht). reflexivity.
Qed.

(** The parser on a text that names [UnicodeEncodeError] with a range of
    positions. *)
Lemma failure_parser_position_range s pre msg rest (b : N) :
  Py.split ":" (lastline s) = "UnicodeEncodeError" :: msg :: rest ->
  msg = pre +:+ String "-" (Py.fmt_int (Z.of_N b)) ->
  failure_parser (FailureText s)
  = Ok ("UnicodeEncodeError", msg,
        {[ "context" := context_of_offset (Z.of_N b) ]}).
Proof.
  intros Hfields Hmsg. unfold failure_parser.
  rewrite last_item_split. fold (lastline s). bind_ok. rewrite Hfields.
  change (firstn 2 ("UnicodeEncodeError" :: msg :: rest))
    with ["UnicodeEncodeError"; msg].
  cbn [Py.unpack2]. bind_ok. cbn iota.
  change (String.eqb "UnicodeEncodeError" "UnicodeEncodeError") with true.
  cbn iota. rewrite last_item_split. bind_ok.
  rewrite Hmsg at 1. rewrite split_app, last_app_nonempty by apply split_nonempty.
  rewrite split_no_sep.
  - cbn [List.last]. rewrite int_fmt_int. reflexivity.
  - rewrite fmt_int_of_N. eapply all_chars_not_contains, digits_of_uint_nz.
    reflexivity.
Qed.

End BadInputFacts.

(** X22: for a text that names [UnicodeEncodeError] with a single
    position, as Python words the failure of one character, the message
    holds no [-] and is no number: [failure_parser] raises [ValueError]
    and no place is found. *)
Theorem unicode_error_single_position s msg rest c :
  Py.split ":" (lastline s) = "UnicodeEncodeError" :: msg :: rest ->
  Py.contains "-" msg = false ->
  Py.contains c msg = true ->
  is_digit c = false -> Py.is_space c = false -> c <> "+"%char ->
  failure_parser (FailureText s) = Raise ValueError.
Proof.
  intros Hfields Hdash Hc Hd Hs Hp. unfold failure_parser.
  rewrite last_item_split. fold (lastline s). bind_ok. rewrite Hfields.
  change (firstn 2 ("UnicodeEncodeError" :: msg :: rest))
    with ["UnicodeEncodeError"; msg].
  cbn [Py.unpack2]. bind_ok. cbn iota.
  change (String.eqb "UnicodeEncodeError" "UnicodeEncodeError") with true.
  cbn iota. rewrite last_item_split, (split_no_sep _ _ Hdash). bind_ok.
  cbn [List.last]. rewrite (int_raises msg c); try assumption; [reflexivity|].
  intros ->. congruence.
Qed.

Lemma unicode_error_single_position_witness :
  failure_parser
    (FailureText
       "UnicodeEncodeError: 'ascii' codec can't encode character in position 3: ordinal not in range(128)")
  = Raise ValueError.
Proof.
  apply (unicode_error_single_position
           "UnicodeEncodeError: 'ascii' codec can't encode character in position 3: ordinal not in range(128)"
           " 'ascii' codec can't encode character in position 3"
           [" ordinal not in range(128)"] "p");
    (reflexivity || discriminate).
Defined.

(** X23: a first word of the detail that ends in its [=], with no value,
    makes [failure_parser] raise [IndexError]; one with two [=] or more
    makes it raise [ValueError]. *)
Theorem failure_parser_bad_pair s err msg rest e ws :
  Py.split ":" (lastline s) = err :: msg :: rest ->
  err <> "UnicodeEncodeError" ->
  Rules.words (Py.join ":" rest) = e :: ws ->
  Py.contains "=" e = true ->
  (forall k, Py.split "=" e = [k; ""] ->
             failure_parser (FailureText s) = Raise IndexError)
  /\ (forall a b c l, Py.split "=" e = a :: b :: c :: l ->
                      failure_parser (FailureText s) = Raise ValueError).
Proof.
  intros Hfields Hne Hwords He.
  assert (Hstep : failure_parser (FailureText s)
                  = (st ← (st' ← step (Scan ∅ false None) e ; steps st' ws) ;
                     Ok (err, msg, tval st))).
  { unfold failure_parser.
    rewrite last_item_split. fold (lastline s). bind_ok.
    rewrite detail_fields, Hfields.
    change (firstn 2 (err :: msg :: rest)) with [err; msg].
    change (skipn 2 (err :: msg :: rest)) with rest.
    cbn [Py.unpack2]. bind_ok. cbn iota.
    apply String.eqb_neq in Hne. rewrite Hne.
    rewrite scan_elements_words. fold (Rules.words (Py.join ":" rest)).
    rewrite Hwords. reflexivity. }
  rewrite Hstep. unfold step. rewrite He.
  split; [intros k Hsplit | intros a b c l Hsplit]; rewrite Hsplit; reflexivity.
Qed.

Lemma failure_parser_bad_pair_witness :
  failure_parser (FailureText "Error: bad: value= 3") = Raise IndexError.
Proof.
  apply (proj1 (failure_parser_bad_pair "Error: bad: value= 3" "Error" " bad"
                  [" value= 3"] "value=" ["3"] eq_refl ltac:(discriminate)
                  eq_refl eq_refl) "value").
  reflexivity.
Defined.

(** X24: for a text that names [UnicodeEncodeError] with a range of
    positions [A-B], [smart_failure] shows its dialog and puts the marker
    at the character index [B]. *)
Theorem smart_failure_marks_range_end s pre msg rest (a b : N) w :
  Py.split ":" (lastline s) = "UnicodeEncodeError" :: msg :: rest ->
  msg = pre +:+ "position " +:+ Py.fmt_int (Z.of_N a)
            +:+ "-" +:+ Py.fmt_int (Z.of_N b) ->
  smart_failure (FailureText s) w
  = (Ok tt,
     add_events
       (ErrorMessage
          (Parsed "UnicodeEncodeError" msg
                  {[ "context" := context_of_offset (Z.of_N b) ]})
          :: mark_events (CharIndex (Z.of_N b)))
       w).
Proof.
  intros Hfields Hmsg. rewrite smart_failure_eq.
  rewrite (failure_parser_position_range s
             (pre +:+ "position " +:+ Py.fmt_int (Z.of_N a)) msg rest b Hfields).
  - rewrite show_context_eq, lookup_singleton_eq, context_point_of_offset.
    unfold add_event. rewrite add_events_app. reflexivity.
  - rewrite Hmsg, !append_assoc. reflexivity.
Qed.

Lemma smart_failure_marks_range_end_witness :
  exists m,
    smart_failure
      (FailureText
         "UnicodeEncodeError: 'ascii' codec can't encode characters in position 175337-175339: ordinal not in range(128)")
      empty_world
    = (Ok tt, add_events (ErrorMessage m :: mark_events (CharIndex 175339))
                         empty_world).
Proof.
  eexists.
  apply (smart_failure_marks_range_end
           "UnicodeEncodeError: 'ascii' codec can't encode characters in position 175337-175339: ordinal not in range(128)"
           " 'ascii' codec can't encode characters in "
           " 'ascii' codec can't encode characters in position 175337-175339"
           [" ordinal not in range(128)"] 175337%N 175339%N);
    reflexivity.
Defined.
